(** * iron-llm: the retrieval-augmented chat handler of [app.py]

    A shallow embedding of the request handler [chat] and of its helpers
    [retrieve_context], [log_to_google_sheet] and [get_google_credentials],
    followed by the properties of the retrieval / generation / session
    pipeline.

    Modelling conventions.
    - A Python [str] is a [string] holding its UTF-8 bytes; concatenation and
      f-string interpolation of strings are string append ([+:+]).
    - A Python [dict] with string keys is a [gmap string _]; the Flask session,
      whose two keys hold values of different types, is a record of optional
      fields (a field is [None] when the key is absent).
    - The code is a sequence of calls to external services (embedding model,
      vector index, generative model, spreadsheet, clock, random source)
      around a mutable session.  It is written in a state-and-exception
      monad: a computation maps a state to an outcome (a raised exception or
      a value) and a new state; mutations done before an exception is raised
      persist, as in Python.
    - The external services are the fields of a record [Services]: each is
      an arbitrary function of its arguments and of the state of the outside
      world [W], which it may change.  Every call is also recorded, with its
      arguments, in a ghost trace.
    - Exceptions are the instances of Python's [Exception], which is what
      [except Exception] catches. *)

From Stdlib Require Import Ascii String.
From stdpp Require Import base option list strings gmap.


(** ** Strings *)

(** The newline character, written ["\n"] in the source. *)
Definition nl : string := String "010"%char "".

(** [sep.join(pieces)]. *)
Fixpoint join (sep : string) (pieces : list string) : string :=
  match pieces with
  | [] => ""
  | [x] => x
  | x :: xs => x +:+ sep +:+ join sep xs
  end.

(** [needle in s]: [needle] occurs in [s] as a contiguous substring. *)
Definition contains (s needle : string) : Prop :=
  ∃ before after, s = before +:+ needle +:+ after.

(** [s.endswith(suffix)]. *)
Definition ends_with (s suffix : string) : Prop :=
  ∃ before, s = before +:+ suffix.

(** ** Exceptions *)

Inductive exn : Type :=
  | KeyError (key : string)            (* [d[key]] on a dict without [key] *)
  | IndexError (msg : string)          (* [a[0]] on an empty array *)
  | ValueError (msg : string)
  | BadRequestKeyError (key : string)  (* [request.form[key]], key not posted *)
  | Raised (cls msg : string).         (* any other exception of a library *)

(** [str(e)].  For a [KeyError] it is the [repr] of the key, which for the
    keys of this program (no quote, no escape) is the key between single
    quotes. *)
Definition str_exn (e : exn) : string :=
  match e with
  | KeyError key => "'" +:+ key +:+ "'"
  | IndexError msg => msg
  | ValueError msg => msg
  | BadRequestKeyError key =>
      "400 Bad Request: The browser (or proxy) sent a request that this server could not understand."
  | Raised _ msg => msg
  end.

(** ** Data *)

(** A match of the vector index.  Only its metadata is read by the code; it
    is a dict from field names to strings, as at the interface of the index
    ([{metadata: {text, source?}, score}]). *)
Record Match : Type := mkMatch {
  match_id : string;
  metadata : gmap string string
}.

(** One entry of [session["history"]]: [{"query": ..., "response": ...}]. *)
Record Turn : Type := mkTurn {
  query : string;
  response : string
}.

(** The Flask session: the keys ["history"] and ["session_id"], and the
    [modified] flag that decides whether the cookie is written back. *)
Record Session : Type := mkSession {
  history : option (list Turn);
  session_id : option string;
  modified : bool
}.

Definition empty_session : Session := mkSession None None false.

Inductive Method : Type := GET | HEAD | POST.

#[global] Instance Method_eq_dec : EqDecision Method.
Proof. solve_decision. Defined.

Record Request : Type := mkRequest {
  method : Method;
  form : gmap string string
}.

(** What the template receives and lays out: one chat box per element of
    [history], numbered by [loop.index] from 1, showing [pair.query] and
    [pair.response].  (HTML escaping and [tojson] are Jinja's.) *)
Record ChatBox : Type := mkChatBox {
  loop_index : nat;
  pair : Turn
}.

Record Page : Type := mkPage {
  page_response : option string;
  chat_history : list ChatBox
}.

(** The status of the answer to a request whose handler returned a page or
    raised: Flask answers 200 with the page, 400 to a [BadRequestKeyError]
    and 500 to any other exception. *)
Definition http_status (outcome : exn + Page) : nat :=
  match outcome with
  | inr _ => 200
  | inl (BadRequestKeyError _) => 400
  | inl _ => 500
  end.

(** ** Constants *)

Definition INDEX_NAME : string := "multi-pdf-rag-docling-e5".
Definition SPREADSHEET_NAME : string := "Iron-LLM logs".
Definition MODEL_NAME : string := "gemini-1.5-flash".
Definition default_top_k : nat := 20.

Definition scopes : list string :=
  [ "https://www.googleapis.com/auth/spreadsheets";
    "https://www.googleapis.com/auth/drive" ].

Section App.

(** The state of the outside world, an embedding vector, a parsed JSON
    value, and the handles of the spreadsheet client library. *)
Context {W Vec Json Creds Client Sheet : Type}.

(** ** External services *)

Record Services : Type := mkServices {
  (* [str(uuid.uuid4())] *)
  uuid4 : W → string * W;
  (* [embedder.encode(sentences)]: one vector per sentence *)
  encode : list string → W → (exn + list Vec) * W;
  (* [index.query(vector=, top_k=, include_metadata=)["matches"]] *)
  index_query : Vec → nat → bool → W → (exn + list Match) * W;
  (* [genai.GenerativeModel(name).generate_content(prompt).text] *)
  generate_content : string → string → W → (exn + string) * W;
  (* [os.getenv("GOOGLE_CREDS_B64")] *)
  GOOGLE_CREDS_B64 : option string;
  (* [base64.b64decode(s).decode("utf-8")] *)
  b64decode_utf8 : string → exn + string;
  (* [json.loads(s)] *)
  json_loads : string → exn + Json;
  (* [Credentials.from_service_account_info(info, scopes=)] *)
  from_service_account_info : Json → list string → exn + Creds;
  (* [gspread.authorize(creds)] *)
  authorize : Creds → W → (exn + Client) * W;
  (* [client.open(name).sheet1] *)
  open_sheet1 : Client → string → W → (exn + Sheet) * W;
  (* [sheet.append_row(row)] *)
  append_row : Sheet → list string → W → (exn + ()) * W;
  (* [datetime.utcnow().isoformat()] *)
  utcnow_isoformat : W → string * W
}.

(** The calls made to the outside, in order. *)
Inductive event : Type :=
  | EvUuid4 (result : string)
  | EvEncode (sentences : list string)
  | EvQuery (vector : Vec) (top_k : nat) (include_metadata : bool)
  | EvGenerate (model prompt : string)
  | EvAuthorize
  | EvOpen (name : string)
  | EvUtcnow (result : string)
  | EvAppendRow (row : list string)
  | EvPrint (line : string).

(** ** The state-and-exception monad *)

Record State : Type := mkState {
  session : Session;
  world : W;
  trace : list event
}.

Definition M (A : Type) : Type := State → (exn + A) * State.

#[global] Instance M_ret : MRet M := λ A a st, (inr a, st).

#[global] Instance M_bind : MBind M := λ A B f m st,
  match m st with
  | (inl e, st') => (inl e, st')
  | (inr a, st') => f a st'
  end.

Definition raise {A} (e : exn) : M A := λ st, (inl e, st).

(** A pure computation that may raise. *)
Definition lift {A} (r : exn + A) : M A := λ st, (r, st).

(** [try: body / except Exception as e: handler e]. *)
Definition try_except {A} (body : M A) (handler : exn → M A) : M A := λ st,
  match body st with
  | (inl e, st') => handler e st'
  | (inr a, st') => (inr a, st')
  end.

Definition get_session : M Session := λ st, (inr (session st), st).

Definition put_session (s : Session) : M () := λ st,
  (inr (), mkState s (world st) (trace st)).

(** A call to a service that may raise: the world moves on and the call is
    recorded. *)
Definition call {A} (ev : event) (f : W → (exn + A) * W) : M A := λ st,
  let '(r, w) := f (world st) in
  (r, mkState (session st) w (trace st ++ [ev])).

(** A call to a service that cannot raise; the event records its result. *)
Definition call_total {A} (ev : A → event) (f : W → A * W) : M A := λ st,
  let '(a, w) := f (world st) in
  (inr a, mkState (session st) w (trace st ++ [ev a])).

(** [print(line)]. *)
Definition print (line : string) : M () := λ st,
  (inr (), mkState (session st) (world st) (trace st ++ [EvPrint line])).

(** [[f(x) for x in xs]] for an [f] that may raise: left to right, stopping
    at the first exception. *)
Fixpoint comprehension {A B} (f : A → exn + B) (xs : list A) : exn + list B :=
  match xs with
  | [] => inr []
  | x :: xs' =>
      match f x with
      | inl e => inl e
      | inr y =>
          match comprehension f xs' with
          | inl e => inl e
          | inr ys => inr (y :: ys)
          end
      end
  end.

Variable svc : Services.

(** ** [get_google_credentials] *)

Definition get_google_credentials : M Creds :=
  match GOOGLE_CREDS_B64 svc with
  | None | Some "" =>
      (* [if not GOOGLE_CREDS_B64]: unset or empty *)
      raise (ValueError "Missing GOOGLE_CREDS_B64 environment variable.")
  | Some b64 =>
      creds_json ← lift (b64decode_utf8 svc b64);
      info ← lift (json_loads svc creds_json);
      lift (from_service_account_info svc info scopes)
  end.

(** ** [log_to_google_sheet] *)

Definition log_failure_prefix : string := "❌ Failed to log to Google Sheet: ".

Definition log_to_google_sheet (sid user_input bot_response : string) : M () :=
  try_except
    (creds ← get_google_credentials;
     client ← call EvAuthorize (authorize svc creds);
     sheet ← call (EvOpen SPREADSHEET_NAME) (open_sheet1 svc client SPREADSHEET_NAME);
     now ← call_total EvUtcnow (utcnow_isoformat svc);
     let row := [sid; now; user_input; bot_response] in
     call (EvAppendRow row) (append_row svc sheet row))
    (λ e, print (log_failure_prefix +:+ str_exn e)).

(** ** [retrieve_context] *)

(** [f"{m['metadata']['text']} (source: {m['metadata'].get('source', 'unknown')})"] *)
Definition format_match (m : Match) : exn + string :=
  match metadata m !! "text" with
  | None => inl (KeyError "text")
  | Some text =>
      inr (text +:+ " (source: " +:+ default "unknown" (metadata m !! "source") +:+ ")")
  end.

Definition retrieve_context (query : string) (top_k : nat) : M string :=
  let formatted_query := "query: " +:+ query in
  embeddings ← call (EvEncode [formatted_query]) (encode svc [formatted_query]);
  q_emb ← match embeddings with
          | [] => raise (IndexError "index 0 is out of bounds for axis 0 with size 0")
          | v :: _ => mret v
          end;
  matches ← call (EvQuery q_emb top_k true) (index_query svc q_emb top_k true);
  context_pieces ← lift (comprehension format_match matches);
  mret (join (nl +:+ nl) context_pieces).

(** ** The session store *)

(** [session[key] = value] marks the session as modified. *)
Definition set_history (turns : list Turn) : M () :=
  s ← get_session;
  put_session (mkSession (Some turns) (session_id s) true).

Definition set_session_id (sid : string) : M () :=
  s ← get_session;
  put_session (mkSession (history s) (Some sid) true).

(** [session.modified = True]. *)
Definition set_modified : M () :=
  s ← get_session;
  put_session (mkSession (history s) (session_id s) true).

(** [session["history"]]. *)
Definition get_history : M (list Turn) :=
  s ← get_session;
  match history s with
  | None => raise (KeyError "history")
  | Some turns => mret turns
  end.

(** [session["session_id"]]. *)
Definition get_session_id : M string :=
  s ← get_session;
  match session_id s with
  | None => raise (KeyError "session_id")
  | Some sid => mret sid
  end.

(** [session["history"].append(turn)]: the list held by the session is
    mutated in place; the [modified] flag is not touched. *)
Definition history_append (turn : Turn) : M () :=
  turns ← get_history;
  s ← get_session;
  put_session (mkSession (Some (turns ++ [turn])) (session_id s) (modified s)).

(** ** The page *)

(** The [for] loop of the template over [history]. *)
Definition chat_boxes (history : list Turn) : list ChatBox :=
  imap (λ i pair, mkChatBox (S i) pair) history.

(** [render_template_string(HTML_TEMPLATE, response=, history=)]. *)
Definition render_template_string (response : option string) (history : list Turn) : Page :=
  mkPage response (chat_boxes history).

(** ** [chat] *)

(** The f-string handed to [generate_content]. *)
Definition prompt_header : string := "Use this context to answer the question:".

Definition compose_prompt (context query : string) : string :=
  prompt_header +:+ nl +:+ nl +:+ context +:+ nl +:+ nl +:+ "Question: " +:+ query.

Definition generation_failure_prefix : string := "⚠️ Error generating response: ".

(** [request.form[key]]. *)
Definition form_get (req : Request) (key : string) : M string :=
  match form req !! key with
  | None => raise (BadRequestKeyError key)
  | Some v => mret v
  end.

(** Lines 120-122: first contact. *)
Definition ensure_session : M () :=
  s ← get_session;
  match history s with
  | Some _ => mret ()
  | None =>
      set_history [];;
      sid ← call_total EvUuid4 (uuid4 svc);
      set_session_id sid
  end.

(** Lines 126-139: the body of [if request.method == "POST"]; its value is
    the new binding of [response]. *)
Definition answer (req : Request) : M string :=
  query ← form_get req "query";
  context ← retrieve_context query default_top_k;
  response ← try_except
               (call (EvGenerate MODEL_NAME (compose_prompt context query))
                     (generate_content svc MODEL_NAME (compose_prompt context query)))
               (λ e, mret (generation_failure_prefix +:+ str_exn e));
  history_append (mkTurn query response);;
  set_modified;;
  sid ← get_session_id;
  log_to_google_sheet sid query response;;
  mret response.

Definition chat (req : Request) : M Page :=
  ensure_session;;
  response ← match method req with
             | POST => r ← answer req; mret (Some r)
             | _ => mret None
             end;
  turns ← get_history;
  mret (render_template_string response (reverse turns)).

(** ** A session over several requests *)

(** What Flask does with the session once the handler is done (also when
    it raised and the answer is an error page): the cookie is rewritten
    with the session's content if the session is marked modified, and is
    left as the request found it otherwise. *)
Definition save_session (loaded current : Session) : Session :=
  if modified current
  then mkSession (history current) (session_id current) false
  else loaded.

(** One request of the session: the state in which its next request starts. *)
Definition handle (req : Request) (st : State) : State :=
  let st' := (chat req st).2 in
  mkState (save_session (session st) (session st')) (world st') (trace st').

(** The states a session can be in: it starts without a cookie, each of its
    requests is handled in turn, and the outside world may change at any
    time between two of them. *)
Inductive reachable : State → Prop :=
  | reachable_first_contact w :
      reachable (mkState empty_session w [])
  | reachable_request req st :
      reachable st → reachable (handle req st)
  | reachable_world w st :
      reachable st → reachable (mkState (session st) w (trace st)).

End App.

(** ** Vocabulary of the properties *)

(** The rows handed to [append_row] in a sequence of calls. *)
Definition audit_rows {Vec} (evs : list (@event Vec)) : list (list string) :=
  omap (λ ev, match ev with EvAppendRow row => Some row | _ => None end) evs.

(** A session that has a history also has an identifier. *)
Definition session_ok (s : Session) : Prop :=
  is_Some (history s) → is_Some (session_id s).

(** The turns of a session, none when it has no history yet. *)
Definition turns_of (s : Session) : list Turn := default [] (history s).

(** A match record as the specification describes it: a text and an
    optional source label. *)
Definition MatchRecord : Type := string * option string.

(** [m] is the match record [r]. *)
Definition is_record (m : Match) (r : MatchRecord) : Prop :=
  metadata m !! "text" = Some r.1 ∧ metadata m !! "source" = r.2.

(** The specification's format of one match:
    ["<text> (source: <source-or-'unknown'>)"]. *)
Definition spec_format (r : MatchRecord) : string :=
  r.1 +:+ " (source: " +:+ (match r.2 with Some src => src | None => "unknown" end) +:+ ")".

(** The specification's context block: the formatted matches, in order,
    separated by a blank line. *)
Definition spec_context (rs : list MatchRecord) : string :=
  join (nl +:+ nl) (map spec_format rs).

(** The answer stored for a turn, from the outcome of the generation call
    (lines 129-134). *)
Definition response_of (g : exn + string) : string :=
  match g with
  | inr text => text
  | inl e => generation_failure_prefix +:+ str_exn e
  end.

(** Two service bundles that differ at most in the audit path (credentials,
    authorization, spreadsheet, clock). *)
Definition same_core {W Vec Json Creds Client Sheet}
    (svc svc' : @Services W Vec Json Creds Client Sheet) : Prop :=
  uuid4 svc = uuid4 svc' ∧ encode svc = encode svc' ∧
  index_query svc = index_query svc' ∧
  generate_content svc = generate_content svc'.

(** The lines printed in a sequence of calls. *)
Definition printed_lines {Vec} (evs : list (@event Vec)) : list string :=
  omap (λ ev, match ev with EvPrint line => Some line | _ => None end) evs.

(** The calls to the model in a sequence of calls: model name and prompt. *)
Definition generations {Vec} (evs : list (@event Vec)) : list (string * string) :=
  omap (λ ev, match ev with EvGenerate model prompt => Some (model, prompt) | _ => None end) evs.

(** The turn that a row of the spreadsheet records, in its third and fourth
    columns. *)
Definition row_turn (row : list string) : option Turn :=
  match row with
  | [_; _; q; r] => Some (mkTurn q r)
  | _ => None
  end.

(** The turns recorded by the rows handed to [append_row]. *)
Definition logged_turns {Vec} (evs : list (@event Vec)) : list Turn :=
  omap row_turn (audit_rows evs).

(** The calls that one run of [log_to_google_sheet] can make: it stops at
    the first step that raises and prints the exception. *)
Inductive audit_events {Vec} (sid q r : string) : list (@event Vec) → Prop :=
  | audit_no_credentials e :
      audit_events sid q r [EvPrint (log_failure_prefix +:+ str_exn e)]
  | audit_not_authorized e :
      audit_events sid q r [EvAuthorize; EvPrint (log_failure_prefix +:+ str_exn e)]
  | audit_not_opened e :
      audit_events sid q r
        [EvAuthorize; EvOpen SPREADSHEET_NAME;
         EvPrint (log_failure_prefix +:+ str_exn e)]
  | audit_not_appended now e :
      audit_events sid q r
        [EvAuthorize; EvOpen SPREADSHEET_NAME; EvUtcnow now;
         EvAppendRow [sid; now; q; r];
         EvPrint (log_failure_prefix +:+ str_exn e)]
  | audit_appended now :
      audit_events sid q r
        [EvAuthorize; EvOpen SPREADSHEET_NAME; EvUtcnow now;
         EvAppendRow [sid; now; q; r]].

(** The model call of a turn: the pinned model, on a prompt composed with
    the query of the turn. *)
Definition generation_of_turn (gen : string * string) (t : Turn) : Prop :=
  gen.1 = MODEL_NAME ∧ ∃ context, gen.2 = compose_prompt context (query t).

(** ** Test doubles *)

Module Mock.

(** The world is the content of the spreadsheet. *)
Definition World : Type := list (list string).

(** Services with canned answers: the index returns [matches], the model
    returns [answer], and the spreadsheet opens only if [sheet_ok]. *)
Definition services (matches : exn + list Match) (answer : exn + string)
    (sheet_ok : bool) : @Services World () () () () () :=
  {| uuid4 := λ w, ("3f2b8c1e-5a4d-4c6b-9e7f-0a1b2c3d4e5f", w);
     encode := λ sentences w, (inr (map (λ _, ()) sentences), w);
     index_query := λ _ _ _ w, (matches, w);
     generate_content := λ _ _ w, (answer, w);
     GOOGLE_CREDS_B64 := Some "e30=";
     b64decode_utf8 := λ _, inr "{}";
     json_loads := λ _, inr ();
     from_service_account_info := λ _ _, inr ();
     authorize := λ _ w, (inr (), w);
     open_sheet1 := λ _ name w,
       if sheet_ok then (inr (), w) else (inl (Raised "SpreadsheetNotFound" name), w);
     append_row := λ _ row w, (inr (), (w ++ [row])%list);
     utcnow_isoformat := λ w, ("2024-05-01T12:00:00", w) |}.

Definition m1 : Match :=
  mkMatch "a" (<["text" := "Lock all valves"]> (<["source" := "doc1"]> ∅)).
Definition m2 : Match :=
  mkMatch "b" (<["text" := "Notify supervisor"]> (<["source" := "doc2"]> ∅)).

(** A match without source, and a match without text. *)
Definition m3 : Match := mkMatch "c" (<["text" := "Wear gloves"]> ∅).
Definition m4 : Match := mkMatch "d" (<["source" := "doc4"]> ∅).

Definition lockout : string := "What is the lockout procedure?".

Definition quota : exn := Raised "ResourceExhausted" "429 quota exceeded".
Definition unavailable : exn := Raised "PineconeApiException" "503 Service Unavailable".

(** The index returns the two matches and the model answers. *)
Definition answering (sheet_ok : bool) : @Services World () () () () () :=
  services (inr [m1; m2]) (inr "Close and tag every valve.") sheet_ok.

(** The same services when the environment has no credentials. *)
Definition without_credentials : @Services World () () () () () :=
  {| uuid4 := uuid4 (answering true);
     encode := encode (answering true);
     index_query := index_query (answering true);
     generate_content := generate_content (answering true);
     GOOGLE_CREDS_B64 := None;
     b64decode_utf8 := b64decode_utf8 (answering true);
     json_loads := json_loads (answering true);
     from_service_account_info := from_service_account_info (answering true);
     authorize := authorize (answering true);
     open_sheet1 := open_sheet1 (answering true);
     append_row := append_row (answering true);
     utcnow_isoformat := utcnow_isoformat (answering true) |}.

(** The page of an outcome, the empty page if there is none. *)
Definition page_of (r : exn + Page) : Page :=
  match r with
  | inr page => page
  | inl _ => mkPage None []
  end.

Definition post (q : string) : Request := mkRequest POST (<["query" := q]> ∅).

Definition st0 : @State World () := mkState empty_session [] [].

(** A session that has already asked one question. *)
Definition st1 : @State World () :=
  mkState (mkSession (Some [mkTurn "Who signs the permit?" "The shift supervisor."])
             (Some "3f2b8c1e-5a4d-4c6b-9e7f-0a1b2c3d4e5f") false)
    [] [].

End Mock.


(** * Properties *)

(** Unfolds the operations of the monad. *)
Ltac run :=
  unfold mbind, mret, M_bind, M_ret, raise, lift, try_except, get_session,
    put_session, call, call_total, print in *; simpl in *.

Section Properties.

Context {W Vec Json Creds Client Sheet : Type}.
Implicit Types (svc : @Services W Vec Json Creds Client Sheet).
Implicit Types (st : @State W Vec) (evs : list (@event Vec)).

(** ** Strings and lists *)

Lemma join_nil sep : join sep [] = "".
Proof. reflexivity. Qed.

Lemma string_app_assoc (s1 s2 s3 : string) :
  (s1 +:+ s2) +:+ s3 = s1 +:+ (s2 +:+ s3).
Proof.
  induction s1 as [|c s1 IH]; [reflexivity|].
  change (String c ((s1 +:+ s2) +:+ s3) = String c (s1 +:+ (s2 +:+ s3))).
  by rewrite IH.
Qed.

Lemma string_app_nil_r (s : string) : s +:+ "" = s.
Proof.
  induction s as [|c s IH]; [reflexivity|].
  change (String c (s +:+ "") = String c s). by rewrite IH.
Qed.

Lemma string_app_ne_nil (s1 s2 : string) : s1 ≠ "" → s1 +:+ s2 ≠ "".
Proof. by destruct s1. Qed.

Lemma audit_rows_app evs1 evs2 :
  audit_rows (evs1 ++ evs2) = audit_rows evs1 ++ audit_rows evs2.
Proof. apply omap_app. Qed.

(** ** The template loop *)

Lemma imap_pair (f : nat → Turn → ChatBox) (turns : list Turn) :
  (∀ i t, pair (f i t) = t) → pair <$> imap f turns = turns.
Proof.
  revert f. induction turns as [|t turns IH]; intros f Hf; [reflexivity|].
  rewrite imap_cons, fmap_cons, Hf. f_equal. apply IH. intros i t'. apply Hf.
Qed.

Lemma imap_loop_index (f : nat → Turn → ChatBox) (k : nat) (turns : list Turn) :
  (∀ i t, loop_index (f i t) = k + i) →
  loop_index <$> imap f turns = seq k (length turns).
Proof.
  revert f k. induction turns as [|t turns IH]; intros f k Hf; [reflexivity|].
  rewrite imap_cons, fmap_cons, Hf, Nat.add_0_r. simpl. f_equal.
  apply IH. intros i t'. simpl. rewrite Hf. lia.
Qed.

Lemma chat_boxes_pair (turns : list Turn) : pair <$> chat_boxes turns = turns.
Proof. by apply imap_pair. Qed.

Lemma chat_boxes_loop_index (turns : list Turn) :
  loop_index <$> chat_boxes turns = seq 1 (length turns).
Proof. by apply imap_loop_index. Qed.

Lemma chat_boxes_head (t : Turn) (turns : list Turn) :
  head (chat_boxes (t :: turns)) = Some (mkChatBox 1 t).
Proof. reflexivity. Qed.

(** ** The list comprehension *)

Lemma comprehension_records (ms : list Match) (rs : list MatchRecord) :
  Forall2 is_record ms rs →
  comprehension format_match ms = inr (map spec_format rs).
Proof.
  induction 1 as [|m r ms rs [Htext Hsrc] _ IH]; [reflexivity|].
  simpl. unfold format_match at 1. rewrite Htext, Hsrc, IH.
  unfold spec_format. by destruct (r.2).
Qed.

Lemma comprehension_missing_text (ms : list Match) (m : Match) :
  m ∈ ms → metadata m !! "text" = None →
  comprehension format_match ms = inl (KeyError "text").
Proof.
  intros Hin Hm. induction ms as [|m' ms IH]; [by apply not_elem_of_nil in Hin|].
  simpl. unfold format_match at 1.
  destruct (metadata m' !! "text") as [t|] eqn:Ht; [|reflexivity].
  apply elem_of_cons in Hin as [->|Hin]; [congruence|].
  by rewrite (IH Hin).
Qed.

(** ** [retrieve_context] *)

Lemma retrieve_context_run svc q k st v vs w1 ms w2 :
  encode svc ["query: " +:+ q] (world st) = (inr (v :: vs), w1) →
  index_query svc v k true w1 = (inr ms, w2) →
  retrieve_context svc q k st =
    (match comprehension format_match ms with
     | inl e => inl e
     | inr pieces => inr (join (nl +:+ nl) pieces)
     end,
     mkState (session st) w2
       (trace st ++ [EvEncode ["query: " +:+ q]; EvQuery v k true])).
Proof.
  intros Henc Hq. unfold retrieve_context. run.
  rewrite Henc. simpl. rewrite Hq. rewrite <- app_assoc. simpl.
  by destruct (comprehension format_match ms).
Qed.

(** Whatever the services answer, retrieval leaves the session alone and
    makes no call to the audit path. *)
Lemma retrieve_context_frame svc q k st :
  ∃ evs, session (retrieve_context svc q k st).2 = session st ∧
         trace (retrieve_context svc q k st).2 = trace st ++ evs ∧
         audit_rows evs = [].
Proof.
  unfold retrieve_context. run.
  destruct (encode svc _ (world st)) as [[e|[|v vs]] w1] eqn:Henc; simpl;
    try (by eexists [_]).
  destruct (index_query svc v k true w1) as [[e|ms] w2]; simpl.
  - eexists [_; _]. by rewrite <- app_assoc.
  - destruct (comprehension format_match ms); simpl;
      (eexists [_; _]; by rewrite <- app_assoc).
Qed.

(** ** [log_to_google_sheet] *)

(** The audit call returns normally whatever happens inside it, keeps the
    session, and every row it hands to the spreadsheet is
    [[sid; now; q; r]]. *)
Lemma log_to_google_sheet_run svc sid q r st :
  ∃ w' evs,
    log_to_google_sheet svc sid q r st =
      (inr (), mkState (session st) w' (trace st ++ evs)) ∧
    Forall (λ row, ∃ now, row = [sid; now; q; r]) (audit_rows evs).
Proof.
  unfold log_to_google_sheet, get_google_credentials.
  destruct (GOOGLE_CREDS_B64 svc) as [[|c b64]|]; run;
    try solve [eexists _, [_]; split; [reflexivity|constructor]].
  destruct (b64decode_utf8 svc _) as [e|js]; simpl.
  { eexists _, [_]. split; [reflexivity|]. constructor. }
  destruct (json_loads svc js) as [e|info]; simpl.
  { eexists _, [_]. split; [reflexivity|]. constructor. }
  destruct (from_service_account_info svc info scopes) as [e|creds]; simpl.
  { eexists _, [_]. split; [reflexivity|]. constructor. }
  destruct (authorize svc creds (world st)) as [[e|client] w1]; simpl.
  { eexists _, [_; _]. rewrite <- app_assoc. split; [reflexivity|]. constructor. }
  destruct (open_sheet1 svc client SPREADSHEET_NAME w1) as [[e|sheet] w2]; simpl.
  { eexists _, [_; _; _]. rewrite <- !app_assoc. split; [reflexivity|]. constructor. }
  destruct (utcnow_isoformat svc w2) as [now w3]; simpl.
  destruct (append_row svc sheet _ w3) as [[e|[]] w4]; simpl.
  - eexists _, [_; _; _; _; _]. rewrite <- !app_assoc.
    split; [reflexivity|]. repeat constructor. by exists now.
  - eexists _, [_; _; _; _]. rewrite <- !app_assoc.
    split; [reflexivity|]. repeat constructor. by exists now.
Qed.

(** ** First contact *)

Lemma ensure_session_existing svc st turns :
  history (session st) = Some turns → ensure_session svc st = (inr (), st).
Proof. intros H. unfold ensure_session. run. by rewrite H. Qed.

Lemma ensure_session_fresh svc st :
  history (session st) = None →
  ensure_session svc st =
    (inr (), mkState (mkSession (Some []) (Some (uuid4 svc (world st)).1) true)
               (uuid4 svc (world st)).2
               (trace st ++ [EvUuid4 (uuid4 svc (world st)).1])).
Proof.
  intros H. unfold ensure_session, set_history, set_session_id. run.
  rewrite H. simpl. by destruct (uuid4 svc (world st)).
Qed.

Lemma ensure_session_returns svc st : (ensure_session svc st).1 = inr ().
Proof.
  destruct (history (session st)) as [turns|] eqn:H.
  - by rewrite (ensure_session_existing _ _ _ H).
  - by rewrite (ensure_session_fresh _ _ H).
Qed.

Lemma ensure_session_history svc st :
  history (session (ensure_session svc st).2) = Some (turns_of (session st)).
Proof.
  unfold turns_of. destruct (history (session st)) as [turns|] eqn:H.
  - by rewrite (ensure_session_existing _ _ _ H).
  - by rewrite (ensure_session_fresh _ _ H).
Qed.

Lemma ensure_session_id svc st :
  session_id (session (ensure_session svc st).2) =
    match history (session st) with
    | Some _ => session_id (session st)
    | None => Some (uuid4 svc (world st)).1
    end.
Proof.
  destruct (history (session st)) as [turns|] eqn:H.
  - by rewrite (ensure_session_existing _ _ _ H).
  - by rewrite (ensure_session_fresh _ _ H).
Qed.

Lemma ensure_session_trace svc st :
  ∃ evs, trace (ensure_session svc st).2 = trace st ++ evs ∧ audit_rows evs = [].
Proof.
  destruct (history (session st)) as [turns|] eqn:H.
  - rewrite (ensure_session_existing _ _ _ H). exists []. by rewrite app_nil_r.
  - rewrite (ensure_session_fresh _ _ H). by eexists [_].
Qed.

Lemma ensure_session_modified svc st :
  history (session st) = None → modified (session (ensure_session svc st).2) = true.
Proof. intros H. by rewrite (ensure_session_fresh _ _ H). Qed.

Lemma ensure_session_ok svc st :
  session_ok (session st) → is_Some (session_id (session (ensure_session svc st).2)).
Proof.
  intros Hok. rewrite ensure_session_id.
  destruct (history (session st)) eqn:H; [|by eexists].
  apply Hok. by eexists.
Qed.

(** ** The handler, case by case *)

Lemma chat_unfold svc req st :
  chat svc req st =
    (response ← match method req with
                | POST => r ← answer svc req; mret (Some r)
                | _ => mret None
                end;
     turns ← get_history;
     mret (render_template_string response (reverse turns)))
    (ensure_session svc st).2.
Proof.
  unfold chat. unfold mbind at 1. unfold M_bind at 1.
  pose proof (ensure_session_returns svc st) as H.
  destruct (ensure_session svc st) as [[e|[]] st1]; [discriminate|reflexivity].
Qed.

(** A request that is not a [POST] renders the history as it is. *)
Lemma chat_render_only svc req st :
  method req ≠ POST →
  chat svc req st =
    (inr (render_template_string None (reverse (turns_of (session st)))),
     (ensure_session svc st).2).
Proof.
  intros Hm. rewrite chat_unfold.
  pose proof (ensure_session_history svc st) as Hh.
  destruct (ensure_session svc st).2 as [s1 w1 t1]; simpl in Hh.
  unfold get_history. run.
  destruct (method req); try done; simpl; by rewrite Hh.
Qed.

(** A [POST] without the form field [query] is refused. *)
Lemma chat_post_no_query svc req st :
  method req = POST → form req !! "query" = None →
  chat svc req st = (inl (BadRequestKeyError "query"), (ensure_session svc st).2).
Proof.
  intros Hm Hq. rewrite chat_unfold, Hm.
  unfold answer, form_get. rewrite Hq. by run.
Qed.

(** A [POST] whose retrieval raises: the exception leaves the handler. *)
Lemma chat_post_retrieval_fails svc req q st e st2 :
  method req = POST → form req !! "query" = Some q →
  retrieve_context svc q default_top_k (ensure_session svc st).2 = (inl e, st2) →
  chat svc req st = (inl e, st2).
Proof.
  intros Hm Hq Hr. rewrite chat_unfold, Hm.
  unfold answer, form_get. rewrite Hq. run. by rewrite Hr.
Qed.

(** A [POST] whose retrieval succeeds: whatever the generation call does,
    one turn is appended, the audit call is made and the page is rendered. *)
Lemma chat_post_answered svc req q st ctx st2 g w3 sid :
  method req = POST → form req !! "query" = Some q →
  retrieve_context svc q default_top_k (ensure_session svc st).2 = (inr ctx, st2) →
  generate_content svc MODEL_NAME (compose_prompt ctx q) (world st2) = (g, w3) →
  session_id (session (ensure_session svc st).2) = Some sid →
  ∃ w' evs,
    chat svc req st =
      (inr (render_template_string (Some (response_of g))
              (reverse (turns_of (session st) ++ [mkTurn q (response_of g)]))),
       mkState (mkSession (Some (turns_of (session st) ++ [mkTurn q (response_of g)]))
                  (Some sid) true)
         w' (trace st2 ++ EvGenerate MODEL_NAME (compose_prompt ctx q) :: evs)) ∧
    Forall (λ row, ∃ now, row = [sid; now; q; response_of g]) (audit_rows evs).
Proof.
  intros Hm Hq Hr Hg Hsid.
  destruct (retrieve_context_frame svc q default_top_k (ensure_session svc st).2)
    as (evs0 & Hs & _ & _).
  rewrite Hr in Hs. simpl in Hs.
  pose proof (ensure_session_history svc st) as Hh.
  rewrite <- Hs in Hh, Hsid.
  rewrite chat_unfold, Hm. clear Hs.
  destruct st2 as [[h2 id2 m2] w2 t2]. simpl in *. subst h2 id2.
  set (r := response_of g).
  destruct (log_to_google_sheet_run svc sid q r
              (mkState (mkSession (Some (turns_of (session st) ++ [mkTurn q r])) (Some sid) true)
                 w3 (t2 ++ [EvGenerate MODEL_NAME (compose_prompt ctx q)])))
    as (w' & evs & Hlog & Hrows).
  exists w', evs. split; [|exact Hrows].
  unfold answer, form_get, history_append, set_modified, get_history, get_session_id.
  rewrite Hq. run. rewrite Hr. simpl. rewrite Hg.
  subst r. destruct g as [e|text]; simpl in *; rewrite Hlog; simpl;
    by rewrite <- app_assoc.
Qed.

(** A session that has a history but no identifier (none is ever built by
    the handler, see [reachable_session_ok]): the turn is appended and the
    lookup of the identifier raises. *)
Lemma chat_post_no_session_id svc req q st ctx st2 g w3 :
  method req = POST → form req !! "query" = Some q →
  retrieve_context svc q default_top_k (ensure_session svc st).2 = (inr ctx, st2) →
  generate_content svc MODEL_NAME (compose_prompt ctx q) (world st2) = (g, w3) →
  session_id (session (ensure_session svc st).2) = None →
  chat svc req st =
    (inl (KeyError "session_id"),
     mkState (mkSession (Some (turns_of (session st) ++ [mkTurn q (response_of g)]))
                None true)
       w3 (trace st2 ++ [EvGenerate MODEL_NAME (compose_prompt ctx q)])).
Proof.
  intros Hm Hq Hr Hg Hsid.
  destruct (retrieve_context_frame svc q default_top_k (ensure_session svc st).2)
    as (evs0 & Hs & _ & _).
  rewrite Hr in Hs. simpl in Hs.
  pose proof (ensure_session_history svc st) as Hh.
  rewrite <- Hs in Hh, Hsid.
  rewrite chat_unfold, Hm. clear Hs.
  destruct st2 as [[h2 id2 m2] w2 t2]. simpl in *. subst h2 id2.
  unfold answer, form_get, history_append, set_modified, get_history, get_session_id.
  rewrite Hq. run. rewrite Hr. simpl. rewrite Hg.
  by destruct g as [e|text].
Qed.

(** Once retrieval has returned a context, the model is called on the
    prompt composed from that context and the query. *)
Lemma chat_post_generates svc req q st ctx st2 :
  method req = POST → form req !! "query" = Some q →
  retrieve_context svc q default_top_k (ensure_session svc st).2 = (inr ctx, st2) →
  ∃ evs, trace (chat svc req st).2 =
           trace st2 ++ EvGenerate MODEL_NAME (compose_prompt ctx q) :: evs.
Proof.
  intros Hm Hq Hr.
  destruct (generate_content svc MODEL_NAME (compose_prompt ctx q) (world st2))
    as [g w3] eqn:Hg.
  destruct (session_id (session (ensure_session svc st).2)) as [sid|] eqn:Hsid.
  - destruct (chat_post_answered _ _ _ _ _ _ _ _ _ Hm Hq Hr Hg Hsid)
      as (w' & evs & -> & _).
    by exists evs.
  - rewrite (chat_post_no_session_id _ _ _ _ _ _ _ _ Hm Hq Hr Hg Hsid).
    by exists [].
Qed.

(** What a request that is answered with a page did. *)
Lemma chat_success_inv svc req st page st' :
  chat svc req st = (inr page, st') →
  (method req ≠ POST ∧
   page = render_template_string None (reverse (turns_of (session st))) ∧
   st' = (ensure_session svc st).2) ∨
  (method req = POST ∧
   ∃ q ctx st2 g w3 sid w' evs,
     form req !! "query" = Some q ∧
     retrieve_context svc q default_top_k (ensure_session svc st).2 = (inr ctx, st2) ∧
     generate_content svc MODEL_NAME (compose_prompt ctx q) (world st2) = (g, w3) ∧
     session_id (session (ensure_session svc st).2) = Some sid ∧
     page = render_template_string (Some (response_of g))
              (reverse (turns_of (session st) ++ [mkTurn q (response_of g)])) ∧
     st' = mkState (mkSession (Some (turns_of (session st) ++ [mkTurn q (response_of g)]))
                      (Some sid) true)
             w' (trace st2 ++ EvGenerate MODEL_NAME (compose_prompt ctx q) :: evs) ∧
     Forall (λ row, ∃ now, row = [sid; now; q; response_of g]) (audit_rows evs)).
Proof.
  intros Hchat.
  destruct (decide (method req = POST)) as [Hm|Hm]; last first.
  { left. rewrite (chat_render_only _ _ _ Hm) in Hchat. by simplify_eq. }
  right. split; [exact Hm|].
  destruct (form req !! "query") as [q|] eqn:Hq; last first.
  { by rewrite (chat_post_no_query _ _ _ Hm Hq) in Hchat. }
  destruct (retrieve_context svc q default_top_k (ensure_session svc st).2)
    as [[e|ctx] st2] eqn:Hr.
  { by rewrite (chat_post_retrieval_fails _ _ _ _ _ _ Hm Hq Hr) in Hchat. }
  destruct (generate_content svc MODEL_NAME (compose_prompt ctx q) (world st2))
    as [g w3] eqn:Hg.
  destruct (session_id (session (ensure_session svc st).2)) as [sid|] eqn:Hsid; last first.
  { by rewrite (chat_post_no_session_id _ _ _ _ _ _ _ _ Hm Hq Hr Hg Hsid) in Hchat. }
  destruct (chat_post_answered _ _ _ _ _ _ _ _ _ Hm Hq Hr Hg Hsid)
    as (w' & evs & Heq & Hrows).
  rewrite Heq in Hchat. simplify_eq.
  by exists q, ctx, st2, g, w3, sid, w', evs.
Qed.

(** * Main theorems *)

(** ** Retrieval *)

(** C1. For every query [Q] and every list of match records returned by the
    vector index, [retrieve_context Q 20] embeds the one sentence
    ["query: " + Q], asks the index for the 20 nearest vectors with their
    metadata, and returns the records formatted as
    ["<text> (source: <source>)"] -- with the label ["unknown"] for a record
    without source -- joined by a blank line in the order of the index:
    nothing is re-ranked, dropped or merged.  For the records
    (Lock all valves, doc1) and (Notify supervisor, doc2) the result is
    ["Lock all valves (source: doc1)\n\nNotify supervisor (source: doc2)"]. *)
Theorem retrieve_context_spec svc Q st v vs w1 ms w2 (rs : list MatchRecord) :
  encode svc ["query: " +:+ Q] (world st) = (inr (v :: vs), w1) →
  index_query svc v default_top_k true w1 = (inr ms, w2) →
  Forall2 is_record ms rs →
  default_top_k = 20 ∧
  retrieve_context svc Q default_top_k st =
    (inr (spec_context rs),
     mkState (session st) w2
       (trace st ++ [EvEncode ["query: " +:+ Q]; EvQuery v default_top_k true])) ∧
  (rs = [("Lock all valves", Some "doc1"); ("Notify supervisor", Some "doc2")] →
   (retrieve_context svc Q default_top_k st).1 =
     inr ("Lock all valves (source: doc1)" +:+ nl +:+ nl +:+
          "Notify supervisor (source: doc2)")).
Proof.
  intros Henc Hq Hrs.
  assert (retrieve_context svc Q default_top_k st =
    (inr (spec_context rs),
     mkState (session st) w2
       (trace st ++ [EvEncode ["query: " +:+ Q]; EvQuery v default_top_k true])))
    as Hrun.
  { rewrite (retrieve_context_run _ _ _ _ _ _ _ _ _ Henc Hq).
    by rewrite (comprehension_records _ _ Hrs). }
  split; [reflexivity|]. split; [exact Hrun|].
  intros ->. by rewrite Hrun.
Qed.

(** C9. A match without the [source] field is formatted with the label
    ["unknown"], without error; the [text] field is looked up unguarded: as
    soon as one of the matches returned by the index lacks it (and such
    matches exist), [retrieve_context] raises [KeyError('text')] instead of
    returning a context block. *)
Theorem missing_source_unknown_missing_text_raises svc :
  (∀ m text,
     metadata m !! "text" = Some text → metadata m !! "source" = None →
     format_match m = inr (text +:+ " (source: unknown)")) ∧
  (∃ m, metadata m !! "text" = None) ∧
  (∀ q k st v vs w1 ms w2 m,
     encode svc ["query: " +:+ q] (world st) = (inr (v :: vs), w1) →
     index_query svc v k true w1 = (inr ms, w2) →
     m ∈ ms → metadata m !! "text" = None →
     (retrieve_context svc q k st).1 = inl (KeyError "text")).
Proof.
  split; [|split].
  - intros m text Ht Hs. unfold format_match. by rewrite Ht, Hs.
  - by exists (mkMatch "" ∅).
  - intros q k st v vs w1 ms w2 m Henc Hq Hin Hm.
    rewrite (retrieve_context_run _ _ _ _ _ _ _ _ _ Henc Hq).
    by rewrite (comprehension_missing_text _ _ Hin Hm).
Qed.

(** C8. In a [POST], a failure of the embedding call or of the index query is
    caught nowhere: it leaves [retrieve_context] and then [chat] as the
    exception that was raised.  No page is produced (the request is not
    answered with status 200), no turn is appended and
    the state is the one in which retrieval stopped (the model and the audit
    path are not called). *)
Theorem retrieval_failure_propagates svc req q st :
  method req = POST → form req !! "query" = Some q →
  (∀ e w1,
     encode svc ["query: " +:+ q] (world (ensure_session svc st).2) = (inl e, w1) →
     (retrieve_context svc q default_top_k (ensure_session svc st).2).1 = inl e) ∧
  (∀ v vs w1 e w2,
     encode svc ["query: " +:+ q] (world (ensure_session svc st).2) = (inr (v :: vs), w1) →
     index_query svc v default_top_k true w1 = (inl e, w2) →
     (retrieve_context svc q default_top_k (ensure_session svc st).2).1 = inl e) ∧
  (∀ e,
     (retrieve_context svc q default_top_k (ensure_session svc st).2).1 = inl e →
     chat svc req st =
       (inl e, (retrieve_context svc q default_top_k (ensure_session svc st).2).2) ∧
     http_status (chat svc req st).1 ≠ 200 ∧
     history (session (chat svc req st).2) = Some (turns_of (session st))).
Proof.
  intros Hm Hq. split; [|split].
  - intros e w1 Henc. unfold retrieve_context. run. by rewrite Henc.
  - intros v vs w1 e w2 Henc Hquery. unfold retrieve_context. run.
    rewrite Henc. simpl. by rewrite Hquery.
  - intros e Hr.
    destruct (retrieve_context svc q default_top_k (ensure_session svc st).2)
      as [r st2] eqn:Hrun.
    simpl in Hr. subst r.
    rewrite (chat_post_retrieval_fails _ _ _ _ _ _ Hm Hq Hrun).
    split; [reflexivity|]. simpl. split; [by destruct e|].
    destruct (retrieve_context_frame svc q default_top_k (ensure_session svc st).2)
      as (evs & Hs & _).
    rewrite Hrun in Hs. simpl in Hs. rewrite Hs.
    apply ensure_session_history.
Qed.

(** C6. When the index returns no match, [retrieve_context] returns the empty
    string, without error, and the [POST] still calls the model, on the
    prompt composed from that empty context. *)
Theorem zero_matches_still_generate svc req q st v vs w1 w2 :
  method req = POST → form req !! "query" = Some q →
  encode svc ["query: " +:+ q] (world (ensure_session svc st).2) = (inr (v :: vs), w1) →
  index_query svc v default_top_k true w1 = (inr [], w2) →
  (retrieve_context svc q default_top_k (ensure_session svc st).2).1 = inr "" ∧
  ∃ evs, trace (chat svc req st).2 = trace st ++ evs ∧
         EvGenerate MODEL_NAME (compose_prompt "" q) ∈ evs.
Proof.
  intros Hm Hq Henc Hquery.
  pose proof (retrieve_context_run _ _ _ _ _ _ _ _ _ Henc Hquery) as Hr.
  simpl in Hr. split; [by rewrite Hr|].
  destruct (chat_post_generates _ _ _ _ _ _ Hm Hq Hr) as (evs & ->).
  destruct (ensure_session_trace svc st) as (evs0 & Ht & _).
  simpl. rewrite Ht, <- !app_assoc.
  eexists. split; [reflexivity|].
  rewrite !elem_of_app. right. right. apply elem_of_cons. by left.
Qed.

(** ** Prompt and generation *)

(** C2. The prompt is the fixed template: the instruction line, a blank line,
    the context block, a blank line and ["Question: " + Q].  Hence for every
    context -- the empty one included -- it contains [Q], ends with
    ["Question: " + Q] and is not empty; and it is this prompt, composed from
    what retrieval returned, that a [POST] hands to the model. *)
Theorem compose_prompt_spec :
  (∀ C Q : string,
     compose_prompt C Q =
       "Use this context to answer the question:" +:+ nl +:+ nl +:+ C +:+
       nl +:+ nl +:+ "Question: " +:+ Q ∧
     contains (compose_prompt C Q) Q ∧
     ends_with (compose_prompt C Q) ("Question: " +:+ Q) ∧
     compose_prompt C Q ≠ "" ∧
     compose_prompt "" Q ≠ "") ∧
  (∀ svc req Q st C st2,
     method req = POST → form req !! "query" = Some Q →
     retrieve_context svc Q default_top_k (ensure_session svc st).2 = (inr C, st2) →
     ∃ evs, trace (chat svc req st).2 =
              trace st2 ++ EvGenerate MODEL_NAME (compose_prompt C Q) :: evs).
Proof.
  split; [|intros; by eapply chat_post_generates].
  intros C Q. split; [reflexivity|]. split; [|split; [|split]].
  - exists (prompt_header +:+ nl +:+ nl +:+ C +:+ nl +:+ nl +:+ "Question: "), "".
    unfold compose_prompt. by rewrite string_app_nil_r, !string_app_assoc.
  - exists (prompt_header +:+ nl +:+ nl +:+ C +:+ nl +:+ nl).
    unfold compose_prompt. by rewrite !string_app_assoc.
  - by apply string_app_ne_nil.
  - by apply string_app_ne_nil.
Qed.

(** C3. In a [POST] of a session built by the handler, when the generation
    call raises [E] the answer of the turn is
    ["⚠️ Error generating response: " + str(E)]; the turn is appended to the
    history in the same way as when the model answers (the stored response is
    then the model's text), and the handler returns the page: the exception
    does not leave it and the request is answered with status 200. *)
Theorem generation_failure_becomes_answer svc req q st ctx st2 g w3 :
  method req = POST → form req !! "query" = Some q →
  session_ok (session st) →
  retrieve_context svc q default_top_k (ensure_session svc st).2 = (inr ctx, st2) →
  generate_content svc MODEL_NAME (compose_prompt ctx q) (world st2) = (g, w3) →
  (∀ e, g = inl e →
        response_of g = "⚠️ Error generating response: " +:+ str_exn e) ∧
  (∀ text, g = inr text → response_of g = text) ∧
  ∃ page st',
    chat svc req st = (inr page, st') ∧
    http_status (chat svc req st).1 = 200 ∧
    page_response page = Some (response_of g) ∧
    history (session st') =
      Some (turns_of (session st) ++ [mkTurn q (response_of g)]) ∧
    modified (session st') = true.
Proof.
  intros Hm Hq Hok Hr Hg.
  split; [by intros e ->|]. split; [by intros text ->|].
  destruct (ensure_session_ok svc st Hok) as [sid Hsid].
  destruct (chat_post_answered _ _ _ _ _ _ _ _ _ Hm Hq Hr Hg Hsid)
    as (w' & evs & Heq & _).
  eexists _, _. split; [exact Heq|]. by rewrite Heq.
Qed.

(** ** The session store *)

(** C4. Appending a turn to a session makes its history one turn longer and
    keeps the turns it had, in their order, as the first ones; a [POST] that
    is answered appends exactly one turn (and marks the session modified),
    and a request that is not a [POST] appends none. *)
Theorem history_append_only :
  (∀ st turns t,
     history (session st) = Some turns →
     ∃ st' turns',
       history_append t st = (inr (), st') ∧
       history (session st') = Some turns' ∧
       length turns' = S (length turns) ∧
       take (length turns) turns' = turns ∧
       last turns' = Some t) ∧
  (∀ svc req st page st',
     method req = POST → chat svc req st = (inr page, st') →
     ∃ t, history (session st') = Some (turns_of (session st) ++ [t]) ∧
          modified (session st') = true) ∧
  (∀ svc req st,
     method req ≠ POST →
     history (session (chat svc req st).2) = Some (turns_of (session st))).
Proof.
  split; [|split].
  - intros st turns t Hh. unfold history_append, get_history. run. rewrite Hh.
    eexists _, _. split; [reflexivity|]. simpl. split; [reflexivity|].
    rewrite length_app, take_app_length, last_snoc. simpl. split; [lia|done].
  - intros svc req st page st' Hm Hchat.
    apply chat_success_inv in Hchat as [[Hm' _]|(_ & Hpost)]; [done|].
    destruct Hpost as (q & ctx & st2 & g & w3 & sid & w' & evs & _ & _ & _ & _ & _ & -> & _).
    by eexists.
  - intros svc req st Hm. rewrite (chat_render_only _ _ _ Hm). simpl.
    apply ensure_session_history.
Qed.

(** C5. Whatever the request and the history, the page lists the whole
    history of the session, last turn first: the boxes, numbered from 1, are
    the turns in the reverse of the order in which they were appended, and
    after a [POST] the first box is the turn just appended.  A request that
    is not a [POST] always gets its page. *)
Theorem transcript_most_recent_first svc req st :
  (method req ≠ POST →
   ∃ page, chat svc req st = (inr page, (ensure_session svc st).2)) ∧
  (∀ page st',
     chat svc req st = (inr page, st') →
     ∃ turns,
       history (session st') = Some turns ∧
       pair <$> chat_history page = reverse turns ∧
       loop_index <$> chat_history page = seq 1 (length turns) ∧
       (method req = POST →
        ∃ t, turns = turns_of (session st) ++ [t] ∧
             head (chat_history page) = Some (mkChatBox 1 t) ∧
             form req !! "query" = Some (query t) ∧
             page_response page = Some (response t))).
Proof.
  split.
  { intros Hm. eexists. by apply chat_render_only. }
  intros page st' Hchat.
  apply chat_success_inv in Hchat as [(Hm & -> & ->)|(Hm & Hpost)].
  - exists (turns_of (session st)). split; [apply ensure_session_history|].
    simpl. rewrite chat_boxes_pair, chat_boxes_loop_index, length_reverse. done.
  - destruct Hpost as (q & ctx & st2 & g & w3 & sid & w' & evs & Hq & _ & _ & _ & -> & -> & _).
    eexists. split; [reflexivity|]. simpl.
    rewrite chat_boxes_pair, chat_boxes_loop_index, length_reverse.
    split; [done|]. split; [done|]. intros _.
    eexists. split; [reflexivity|]. rewrite reverse_snoc. done.
Qed.

(** ** The audit path *)

Lemma same_core_ensure_session svc svc' st :
  same_core svc svc' → ensure_session svc st = ensure_session svc' st.
Proof. intros (Hu & _). unfold ensure_session. by rewrite Hu. Qed.

Lemma same_core_retrieve_context svc svc' q k st :
  same_core svc svc' → retrieve_context svc q k st = retrieve_context svc' q k st.
Proof. intros (_ & He & Hq & _). unfold retrieve_context. by rewrite He, Hq. Qed.

(** C7. [log_to_google_sheet] returns normally whatever fails inside it --
    decoding the credentials, authorizing, opening the spreadsheet or
    appending the row -- and leaves the session as it was.  Hence the
    outcome of a request (the page, or the exception that ends it), its
    status and the session it leaves, appended turn included, do not depend on the audit
    path: they are the same with any two service bundles that differ only
    there, one in which the row is appended and one in which it is not. *)
Theorem audit_failure_is_invisible :
  (∀ svc sid q r st,
     (log_to_google_sheet svc sid q r st).1 = inr () ∧
     session (log_to_google_sheet svc sid q r st).2 = session st) ∧
  (∀ svc svc' req st,
     same_core svc svc' →
     (chat svc req st).1 = (chat svc' req st).1 ∧
     http_status (chat svc req st).1 = http_status (chat svc' req st).1 ∧
     session (chat svc req st).2 = session (chat svc' req st).2).
Proof.
  split.
  { intros svc sid q r st.
    destruct (log_to_google_sheet_run svc sid q r st) as (w' & evs & -> & _).
    done. }
  intros svc svc' req st Hcore.
  cut ((chat svc req st).1 = (chat svc' req st).1 ∧
       session (chat svc req st).2 = session (chat svc' req st).2).
  { intros [-> ->]. done. }
  pose proof (same_core_ensure_session _ _ st Hcore) as Hens.
  destruct (decide (method req = POST)) as [Hm|Hm]; last first.
  { rewrite !(chat_render_only _ _ _ Hm). by rewrite Hens. }
  destruct (form req !! "query") as [q|] eqn:Hq; last first.
  { rewrite !(chat_post_no_query _ _ _ Hm Hq). by rewrite Hens. }
  destruct (retrieve_context svc q default_top_k (ensure_session svc st).2)
    as [[e|ctx] st2] eqn:Hr;
    pose proof Hr as Hr';
    rewrite (same_core_retrieve_context _ _ _ _ _ Hcore), Hens in Hr'.
  { rewrite (chat_post_retrieval_fails _ _ _ _ _ _ Hm Hq Hr).
    by rewrite (chat_post_retrieval_fails _ _ _ _ _ _ Hm Hq Hr'). }
  destruct (generate_content svc MODEL_NAME (compose_prompt ctx q) (world st2))
    as [g w3] eqn:Hg.
  pose proof Hg as Hg'. destruct Hcore as (_ & _ & _ & Hgen). rewrite Hgen in Hg'.
  destruct (session_id (session (ensure_session svc st).2)) as [sid|] eqn:Hsid;
    pose proof Hsid as Hsid'; rewrite Hens in Hsid'.
  - destruct (chat_post_answered _ _ _ _ _ _ _ _ _ Hm Hq Hr Hg Hsid)
      as (w1 & evs1 & -> & _).
    destruct (chat_post_answered _ _ _ _ _ _ _ _ _ Hm Hq Hr' Hg' Hsid')
      as (w2 & evs2 & -> & _).
    done.
  - rewrite (chat_post_no_session_id _ _ _ _ _ _ _ _ Hm Hq Hr Hg Hsid).
    by rewrite (chat_post_no_session_id _ _ _ _ _ _ _ _ Hm Hq Hr' Hg' Hsid').
Qed.

(** ** The session identifier *)

(** What any request does to the session and to the trace. *)
Lemma chat_state svc req st :
  ∃ evs,
    trace (chat svc req st).2 = trace st ++ evs ∧
    is_Some (history (session (chat svc req st).2)) ∧
    session_id (session (chat svc req st).2) =
      session_id (session (ensure_session svc st).2) ∧
    (history (session st) = None → modified (session (chat svc req st).2) = true) ∧
    (audit_rows evs ≠ [] → modified (session (chat svc req st).2) = true) ∧
    Forall (λ row, ∃ sid, session_id (session (chat svc req st).2) = Some sid ∧
                          row !! 0 = Some sid) (audit_rows evs).
Proof.
  destruct (ensure_session_trace svc st) as (evs0 & Ht0 & Hrows0).
  pose proof (ensure_session_history svc st) as Hh0.
  pose proof (ensure_session_modified svc st) as Hm0.
  assert (∃ evs,
    trace (ensure_session svc st).2 = trace st ++ evs ∧
    is_Some (history (session (ensure_session svc st).2)) ∧
    session_id (session (ensure_session svc st).2) =
      session_id (session (ensure_session svc st).2) ∧
    (history (session st) = None → modified (session (ensure_session svc st).2) = true) ∧
    (audit_rows evs ≠ [] → modified (session (ensure_session svc st).2) = true) ∧
    Forall (λ row, ∃ sid, session_id (session (ensure_session svc st).2) = Some sid ∧
                          row !! 0 = Some sid) (audit_rows evs)) as Hstay.
  { exists evs0. rewrite Hrows0, Hh0. by repeat split. }
  destruct (decide (method req = POST)) as [Hm|Hm]; last first.
  { by rewrite (chat_render_only _ _ _ Hm). }
  destruct (form req !! "query") as [q|] eqn:Hq; last first.
  { by rewrite (chat_post_no_query _ _ _ Hm Hq). }
  clear Hstay.
  destruct (retrieve_context_frame svc q default_top_k (ensure_session svc st).2)
    as (evs1 & Hs1 & Ht1 & Hrows1).
  destruct (retrieve_context svc q default_top_k (ensure_session svc st).2)
    as [[e|ctx] st2] eqn:Hr; simpl in Hs1, Ht1.
  { rewrite (chat_post_retrieval_fails _ _ _ _ _ _ Hm Hq Hr). simpl.
    exists (evs0 ++ evs1). rewrite Ht1, Ht0, Hs1, Hh0, audit_rows_app, Hrows0, Hrows1.
    rewrite <- app_assoc. by repeat split. }
  destruct (generate_content svc MODEL_NAME (compose_prompt ctx q) (world st2))
    as [g w3] eqn:Hg.
  destruct (session_id (session (ensure_session svc st).2)) as [sid|] eqn:Hsid.
  - destruct (chat_post_answered _ _ _ _ _ _ _ _ _ Hm Hq Hr Hg Hsid)
      as (w' & evs & -> & Hrows).
    simpl. eexists (evs0 ++ evs1 ++ EvGenerate _ _ :: evs).
    rewrite Ht1, Ht0, <- !app_assoc. repeat split; [by eexists|].
    rewrite !audit_rows_app, Hrows0, Hrows1. simpl.
    eapply Forall_impl; [exact Hrows|].
    intros row [now ->]. by exists sid.
  - rewrite (chat_post_no_session_id _ _ _ _ _ _ _ _ Hm Hq Hr Hg Hsid). simpl.
    exists (evs0 ++ evs1 ++ [EvGenerate MODEL_NAME (compose_prompt ctx q)]).
    rewrite Ht1, Ht0, <- !app_assoc. repeat split; [by eexists|].
    rewrite !audit_rows_app, Hrows0, Hrows1. simpl. constructor.
Qed.

(** The invariant of a session: history and identifier exist together, and
    the rows handed to the spreadsheet so far carry the identifier. *)
Lemma reachable_invariant svc st :
  reachable svc st →
  (is_Some (history (session st)) ↔ is_Some (session_id (session st))) ∧
  Forall (λ row, ∃ sid, session_id (session st) = Some sid ∧ row !! 0 = Some sid)
    (audit_rows (trace st)).
Proof.
  induction 1 as [w|req st Hreach [IHiff IHrows]|w st Hreach IH]; simpl.
  - split; [|constructor]. split; intros [? [=]].
  - destruct (chat_state svc req st) as (evs & Ht & Hh & Hid & Hfresh & Hlogged & Hrows).
    assert (history (session st) = None → audit_rows (trace st) = []) as Hnone.
    { intros Hn. destruct (audit_rows (trace st)) as [|row rows] eqn:E; [done|].
      apply Forall_cons in IHrows as [(sid & Hsid & _) _].
      assert (is_Some (history (session st))) as [? ?] by (apply IHiff; by eexists).
      congruence. }
    assert (is_Some (history (session st)) →
            session_id (session (chat svc req st).2) = session_id (session st)) as Hkeep.
    { intros [turns Hturns]. rewrite Hid, ensure_session_id. by rewrite Hturns. }
    unfold handle, save_session. simpl.
    destruct (modified (session (chat svc req st).2)) eqn:Hmod; simpl.
    + assert (is_Some (session_id (session (chat svc req st).2))) as Hsome.
      { rewrite Hid. apply ensure_session_ok. intros ?. by apply IHiff. }
      split; [done|].
      rewrite Ht, audit_rows_app. apply Forall_app. split; [|exact Hrows].
      destruct (history (session st)) as [turns|] eqn:Hturns.
      * rewrite Hkeep by by eexists. exact IHrows.
      * rewrite Hnone by done. constructor.
    + split; [exact IHiff|].
      rewrite Ht, audit_rows_app.
      destruct (audit_rows evs) as [|row rows] eqn:E.
      * by rewrite app_nil_r.
      * by specialize (Hlogged ltac:(done)).
  - exact IH.
Qed.

Lemma reachable_session_ok svc st :
  reachable svc st → session_ok (session st).
Proof.
  intros Hreach. destruct (reachable_invariant svc st Hreach) as [Hiff _].
  intros Hh. by apply Hiff.
Qed.

(** C10. In every state that a session reaches through the handler, the
    history and the identifier exist together (both are created by the
    first request and none is created alone), a request never changes an
    identifier that exists -- neither while it runs nor in the session it
    leaves for the next request -- and every row handed to the spreadsheet
    for the session carries that identifier. *)
Theorem session_id_is_stable svc st :
  reachable svc st →
  (is_Some (history (session st)) ↔ is_Some (session_id (session st))) ∧
  (∀ req, is_Some (history (session (handle svc req st))) ∧
          is_Some (session_id (session (handle svc req st)))) ∧
  (∀ req sid,
     session_id (session st) = Some sid →
     session_id (session (chat svc req st).2) = Some sid ∧
     session_id (session (handle svc req st)) = Some sid) ∧
  (∀ row,
     row ∈ audit_rows (trace st) →
     ∃ sid, session_id (session st) = Some sid ∧ row !! 0 = Some sid).
Proof.
  intros Hreach.
  destruct (reachable_invariant svc st Hreach) as [Hiff Hrows].
  split; [exact Hiff|]. split; [|split].
  - intros req.
    destruct (reachable_invariant svc _ (reachable_request svc req st Hreach))
      as [Hiff' _].
    destruct (chat_state svc req st) as (evs & _ & Hh & _ & Hfresh & _).
    assert (is_Some (history (session (handle svc req st)))) as Hsome.
    { unfold handle, save_session. simpl.
      destruct (modified (session (chat svc req st).2)) eqn:Hmod; simpl; [done|].
      destruct (history (session st)) eqn:E; [by eexists|].
      by specialize (Hfresh eq_refl). }
    split; [exact Hsome|]. by apply Hiff'.
  - intros req sid Hsid.
    destruct (chat_state svc req st) as (evs & _ & _ & Hid & _).
    assert (is_Some (history (session st))) as [turns Hturns]
      by (apply Hiff; by eexists).
    assert (session_id (session (chat svc req st).2) = Some sid) as Hchat.
    { rewrite Hid, ensure_session_id. by rewrite Hturns. }
    split; [exact Hchat|].
    unfold handle, save_session. simpl.
    by destruct (modified (session (chat svc req st).2)).
  - intros row Hin. by apply (proj1 (Forall_forall _ _) Hrows).
Qed.

End Properties.

(** * The scenarios of the specification, run on the test doubles *)

(** Two matches: the context block and the prompt. *)
Example lockout_scenario :
  (chat (Mock.answering true) (Mock.post Mock.lockout) Mock.st0).1 =
    inr (mkPage (Some "Close and tag every valve.")
           [mkChatBox 1 (mkTurn Mock.lockout "Close and tag every valve.")]) ∧
  EvGenerate "gemini-1.5-flash"
    ("Use this context to answer the question:" +:+ nl +:+ nl +:+
     "Lock all valves (source: doc1)" +:+ nl +:+ nl +:+
     "Notify supervisor (source: doc2)" +:+ nl +:+ nl +:+
     "Question: What is the lockout procedure?")
    ∈ trace (chat (Mock.answering true) (Mock.post Mock.lockout) Mock.st0).2.
Proof.
  split; [reflexivity|].
  apply list_elem_of_lookup. by exists 3.
Qed.

(** A quota error of the model, then a [GET]: the turn with the warning is
    the first box of the page. *)
Example quota_scenario :
  (chat (Mock.services (inr [Mock.m1; Mock.m2]) (inl Mock.quota) true)
     (mkRequest GET ∅)
     (handle (Mock.services (inr [Mock.m1; Mock.m2]) (inl Mock.quota) true)
        (Mock.post Mock.lockout)
        (handle (Mock.answering true) (Mock.post "Who signs the permit?") Mock.st0))).1 =
    inr (mkPage None
           [mkChatBox 1 (mkTurn Mock.lockout
                           "⚠️ Error generating response: 429 quota exceeded");
            mkChatBox 2 (mkTurn "Who signs the permit?" "Close and tag every valve.")]).
Proof. reflexivity. Qed.

(** The rows of the spreadsheet after the two requests above. *)
Example audit_scenario :
  world (handle (Mock.services (inr [Mock.m1; Mock.m2]) (inl Mock.quota) true)
           (Mock.post Mock.lockout)
           (handle (Mock.answering true) (Mock.post "Who signs the permit?") Mock.st0)) =
    [ ["3f2b8c1e-5a4d-4c6b-9e7f-0a1b2c3d4e5f"; "2024-05-01T12:00:00";
       "Who signs the permit?"; "Close and tag every valve."];
      ["3f2b8c1e-5a4d-4c6b-9e7f-0a1b2c3d4e5f"; "2024-05-01T12:00:00";
       Mock.lockout; "⚠️ Error generating response: 429 quota exceeded"] ].
Proof. reflexivity. Qed.

(** * The main theorems on the test doubles *)

Lemma retrieve_context_spec_witness :
  (retrieve_context (Mock.answering true) Mock.lockout default_top_k Mock.st0).1 =
    inr ("Lock all valves (source: doc1)" +:+ nl +:+ nl +:+
         "Notify supervisor (source: doc2)").
Proof.
  refine (proj2 (proj2 (retrieve_context_spec (Mock.answering true) Mock.lockout
            Mock.st0 () [] [] [Mock.m1; Mock.m2] []
            [("Lock all valves", Some "doc1"); ("Notify supervisor", Some "doc2")]
            _ _ _)) eq_refl).
  - reflexivity.
  - reflexivity.
  - repeat constructor.
Defined.

Lemma missing_source_unknown_missing_text_raises_witness :
  format_match Mock.m3 = inr "Wear gloves (source: unknown)" ∧
  (retrieve_context (Mock.services (inr [Mock.m1; Mock.m4]) (inr "") true)
     Mock.lockout default_top_k Mock.st0).1 = inl (KeyError "text").
Proof.
  pose proof (missing_source_unknown_missing_text_raises
                (Mock.services (inr [Mock.m1; Mock.m4]) (inr "") true))
    as (Hsource & _ & Htext).
  split.
  - apply (Hsource Mock.m3 "Wear gloves"); reflexivity.
  - apply (Htext Mock.lockout default_top_k Mock.st0 () [] []
             [Mock.m1; Mock.m4] [] Mock.m4).
    + reflexivity.
    + reflexivity.
    + apply elem_of_cons. right. apply elem_of_cons. by left.
    + reflexivity.
Defined.

Lemma retrieval_failure_propagates_witness :
  (chat (Mock.services (inl Mock.unavailable) (inr "") true)
     (Mock.post Mock.lockout) Mock.st0).1 = inl Mock.unavailable.
Proof.
  pose proof (retrieval_failure_propagates
                (Mock.services (inl Mock.unavailable) (inr "") true)
                (Mock.post Mock.lockout) Mock.lockout Mock.st0 eq_refl eq_refl)
    as (_ & _ & Hchat).
  destruct (Hchat Mock.unavailable eq_refl) as [-> _]. reflexivity.
Defined.

Lemma zero_matches_still_generate_witness :
  (retrieve_context (Mock.services (inr []) (inr "I do not know.") true)
     Mock.lockout default_top_k
     (ensure_session (Mock.services (inr []) (inr "I do not know.") true) Mock.st0).2).1
  = inr "".
Proof.
  exact (proj1 (zero_matches_still_generate
                  (Mock.services (inr []) (inr "I do not know.") true)
                  (Mock.post Mock.lockout) Mock.lockout Mock.st0 () [] [] []
                  eq_refl eq_refl eq_refl eq_refl)).
Defined.

Lemma compose_prompt_spec_witness :
  ∃ evs,
    trace (chat (Mock.answering true) (Mock.post Mock.lockout) Mock.st0).2 =
      [EvUuid4 "3f2b8c1e-5a4d-4c6b-9e7f-0a1b2c3d4e5f";
       EvEncode ["query: What is the lockout procedure?"];
       EvQuery () 20 true] ++
      EvGenerate MODEL_NAME
        (compose_prompt
           ("Lock all valves (source: doc1)" +:+ nl +:+ nl +:+
            "Notify supervisor (source: doc2)")
           Mock.lockout) :: evs.
Proof.
  refine (proj2 compose_prompt_spec (Mock.answering true)
            (Mock.post Mock.lockout) Mock.lockout Mock.st0
            ("Lock all valves (source: doc1)" +:+ nl +:+ nl +:+
             "Notify supervisor (source: doc2)")
            (retrieve_context (Mock.answering true) Mock.lockout default_top_k
               (ensure_session (Mock.answering true) Mock.st0).2).2
            eq_refl eq_refl _).
  reflexivity.
Defined.

Lemma generation_failure_becomes_answer_witness :
  ∃ page st',
    chat (Mock.services (inr [Mock.m1; Mock.m2]) (inl Mock.quota) false)
      (Mock.post Mock.lockout) Mock.st0 = (inr page, st') ∧
    http_status
      (chat (Mock.services (inr [Mock.m1; Mock.m2]) (inl Mock.quota) false)
         (Mock.post Mock.lockout) Mock.st0).1 = 200 ∧
    page_response page = Some "⚠️ Error generating response: 429 quota exceeded" ∧
    history (session st') =
      Some [mkTurn Mock.lockout "⚠️ Error generating response: 429 quota exceeded"] ∧
    modified (session st') = true.
Proof.
  refine (proj2 (proj2 (generation_failure_becomes_answer
            (Mock.services (inr [Mock.m1; Mock.m2]) (inl Mock.quota) false)
            (Mock.post Mock.lockout) Mock.lockout Mock.st0 _ _ (inl Mock.quota) []
            eq_refl eq_refl _ _ _))).
  - intros [turns Hturns]. discriminate Hturns.
  - reflexivity.
  - reflexivity.
Defined.

Lemma history_append_only_witness :
  ∃ (st' : @State Mock.World ()) turns',
    history_append (mkTurn "second" "answer")
      (mkState (mkSession (Some [mkTurn "first" "answer"]) (Some "id") false) [] [])
      = (inr (), st') ∧
    history (session st') = Some turns' ∧
    length turns' = 2 ∧
    take 1 turns' = [mkTurn "first" "answer"] ∧
    last turns' = Some (mkTurn "second" "answer").
Proof.
  exact (proj1 (@history_append_only Mock.World () () () () ())
           (mkState (mkSession (Some [mkTurn "first" "answer"]) (Some "id") false) [] [])
           [mkTurn "first" "answer"] (mkTurn "second" "answer") eq_refl).
Defined.

Lemma transcript_most_recent_first_witness :
  ∃ turns,
    history (session (chat (Mock.answering true) (Mock.post Mock.lockout)
                        (handle (Mock.answering true) (Mock.post "Who signs the permit?")
                           Mock.st0)).2) = Some turns ∧
    pair <$> chat_history
               (Mock.page_of (chat (Mock.answering true) (Mock.post Mock.lockout)
                                (handle (Mock.answering true)
                                   (Mock.post "Who signs the permit?") Mock.st0)).1)
      = reverse turns.
Proof.
  destruct (proj2 (transcript_most_recent_first (Mock.answering true)
              (Mock.post Mock.lockout)
              (handle (Mock.answering true) (Mock.post "Who signs the permit?") Mock.st0))
              (Mock.page_of (chat (Mock.answering true) (Mock.post Mock.lockout)
                               (handle (Mock.answering true)
                                  (Mock.post "Who signs the permit?") Mock.st0)).1)
              (chat (Mock.answering true) (Mock.post Mock.lockout)
                 (handle (Mock.answering true) (Mock.post "Who signs the permit?")
                    Mock.st0)).2)
    as (turns & Hh & Hpairs & _).
  - vm_compute. reflexivity.
  - exists turns. split; [exact Hh|exact Hpairs].
Defined.

Lemma audit_failure_is_invisible_witness :
  (chat (Mock.answering false) (Mock.post Mock.lockout) Mock.st0).1 =
    (chat (Mock.answering true) (Mock.post Mock.lockout) Mock.st0).1 ∧
  http_status (chat (Mock.answering false) (Mock.post Mock.lockout) Mock.st0).1 =
    http_status (chat (Mock.answering true) (Mock.post Mock.lockout) Mock.st0).1 ∧
  session (chat (Mock.answering false) (Mock.post Mock.lockout) Mock.st0).2 =
    session (chat (Mock.answering true) (Mock.post Mock.lockout) Mock.st0).2.
Proof.
  apply (proj2 audit_failure_is_invisible).
  repeat split; reflexivity.
Defined.

Lemma session_id_is_stable_witness :
  (is_Some (history (session (handle (Mock.answering true) (Mock.post Mock.lockout)
                               Mock.st0))) ↔
   is_Some (session_id (session (handle (Mock.answering true) (Mock.post Mock.lockout)
                                   Mock.st0)))) ∧
  session_id (session (handle (Mock.answering true) (mkRequest GET ∅)
                         (handle (Mock.answering true) (Mock.post Mock.lockout)
                            Mock.st0)))
    = Some "3f2b8c1e-5a4d-4c6b-9e7f-0a1b2c3d4e5f".
Proof.
  pose proof (session_id_is_stable (Mock.answering true)
                (handle (Mock.answering true) (Mock.post Mock.lockout) Mock.st0)
                (reachable_request _ _ _ (reachable_first_contact _ [])))
    as (Hiff & _ & Hkeep & _).
  split; [exact Hiff|].
  apply (Hkeep (mkRequest GET ∅)). reflexivity.
Defined.

(** * Further properties of the handler *)

Section More.

Context {W Vec Json Creds Client Sheet : Type}.
Implicit Types (svc : @Services W Vec Json Creds Client Sheet).
Implicit Types (st : @State W Vec) (evs : list (@event Vec)).

(** ** Classifying the calls *)

Lemma printed_lines_app evs1 evs2 :
  printed_lines (evs1 ++ evs2) = printed_lines evs1 ++ printed_lines evs2.
Proof. apply omap_app. Qed.

Lemma generations_app evs1 evs2 :
  generations (evs1 ++ evs2) = generations evs1 ++ generations evs2.
Proof. apply omap_app. Qed.

Lemma logged_turns_app evs1 evs2 :
  logged_turns (evs1 ++ evs2) = logged_turns evs1 ++ logged_turns evs2.
Proof. unfold logged_turns. by rewrite audit_rows_app, omap_app. Qed.

(** The calls of first contact: none, or the draw of the identifier. *)
Lemma ensure_session_events svc st :
  ∃ evs, trace (ensure_session svc st).2 = trace st ++ evs ∧
         (evs = [] ∨ evs = [EvUuid4 (uuid4 svc (world st)).1]).
Proof.
  destruct (history (session st)) as [turns|] eqn:H.
  - rewrite (ensure_session_existing _ _ _ H). exists []. rewrite app_nil_r. auto.
  - rewrite (ensure_session_fresh _ _ H). eexists. split; [reflexivity|]. auto.
Qed.

(** The calls of retrieval: the embedding, then the query if the embedding
    returned a vector. *)
Lemma retrieve_context_events svc q k st :
  ∃ evs, session (retrieve_context svc q k st).2 = session st ∧
         trace (retrieve_context svc q k st).2 = trace st ++ evs ∧
         (evs = [EvEncode ["query: " +:+ q]] ∨
          ∃ v, evs = [EvEncode ["query: " +:+ q]; EvQuery v k true]).
Proof.
  unfold retrieve_context. run.
  destruct (encode svc _ (world st)) as [[e|[|v vs]] w1] eqn:Henc; simpl;
    try (eexists [_]; by auto).
  destruct (index_query svc v k true w1) as [[e|ms] w2]; simpl.
  - eexists [_; _]. rewrite <- app_assoc. eauto.
  - destruct (comprehension format_match ms); simpl;
      (eexists [_; _]; rewrite <- app_assoc; eauto).
Qed.

(** The calls of the audit. *)
Lemma log_to_google_sheet_events svc sid q r st :
  ∃ w' evs,
    log_to_google_sheet svc sid q r st =
      (inr (), mkState (session st) w' (trace st ++ evs)) ∧
    audit_events sid q r evs.
Proof.
  unfold log_to_google_sheet, get_google_credentials.
  destruct (GOOGLE_CREDS_B64 svc) as [[|c b64]|]; run;
    try solve [eexists _, [_]; split;
                 [reflexivity
                 |exact (audit_no_credentials sid q r
                           (ValueError "Missing GOOGLE_CREDS_B64 environment variable."))]].
  destruct (b64decode_utf8 svc _) as [e|js]; simpl.
  { eexists _, [_]. split; [reflexivity|]. constructor. }
  destruct (json_loads svc js) as [e|info]; simpl.
  { eexists _, [_]. split; [reflexivity|]. constructor. }
  destruct (from_service_account_info svc info scopes) as [e|creds]; simpl.
  { eexists _, [_]. split; [reflexivity|]. constructor. }
  destruct (authorize svc creds (world st)) as [[e|client] w1]; simpl.
  { eexists _, [_; _]. rewrite <- app_assoc. split; [reflexivity|]. constructor. }
  destruct (open_sheet1 svc client SPREADSHEET_NAME w1) as [[e|sheet] w2]; simpl.
  { eexists _, [_; _; _]. rewrite <- !app_assoc. split; [reflexivity|]. constructor. }
  destruct (utcnow_isoformat svc w2) as [now w3]; simpl.
  destruct (append_row svc sheet _ w3) as [[e|[]] w4]; simpl.
  - eexists _, [_; _; _; _; _]. rewrite <- !app_assoc.
    split; [reflexivity|]. constructor.
  - eexists _, [_; _; _; _]. rewrite <- !app_assoc.
    split; [reflexivity|]. constructor.
Qed.

(** ** The handler, in full *)

(** An answered [POST] ends with the audit call, made on the session that
    already holds the new turn. *)
Lemma chat_post_logged svc req q st ctx st2 g w3 sid :
  method req = POST → form req !! "query" = Some q →
  retrieve_context svc q default_top_k (ensure_session svc st).2 = (inr ctx, st2) →
  generate_content svc MODEL_NAME (compose_prompt ctx q) (world st2) = (g, w3) →
  session_id (session (ensure_session svc st).2) = Some sid →
  chat svc req st =
    (inr (render_template_string (Some (response_of g))
            (reverse (turns_of (session st) ++ [mkTurn q (response_of g)]))),
     (log_to_google_sheet svc sid q (response_of g)
        (mkState (mkSession (Some (turns_of (session st) ++ [mkTurn q (response_of g)]))
                    (Some sid) true)
           w3 (trace st2 ++ [EvGenerate MODEL_NAME (compose_prompt ctx q)]))).2).
Proof.
  intros Hm Hq Hr Hg Hsid.
  destruct (retrieve_context_frame svc q default_top_k (ensure_session svc st).2)
    as (evs0 & Hs & _ & _).
  rewrite Hr in Hs. simpl in Hs.
  pose proof (ensure_session_history svc st) as Hh.
  rewrite <- Hs in Hh, Hsid.
  rewrite chat_unfold, Hm. clear Hs.
  destruct st2 as [[h2 id2 m2] w2 t2]. simpl in *. subst h2 id2.
  destruct (log_to_google_sheet_run svc sid q (response_of g)
              (mkState (mkSession (Some (turns_of (session st) ++ [mkTurn q (response_of g)]))
                          (Some sid) true)
                 w3 (t2 ++ [EvGenerate MODEL_NAME (compose_prompt ctx q)])))
    as (w' & evs & Hlog & _).
  unfold answer, form_get, history_append, set_modified, get_history, get_session_id.
  rewrite Hq. run. rewrite Hr. simpl. rewrite Hg.
  destruct g as [e|text]; simpl in *; rewrite Hlog; reflexivity.
Qed.

(** The five ways in which a request can go. *)
Lemma chat_cases svc req st :
  (method req ≠ POST ∧
   chat svc req st =
     (inr (render_template_string None (reverse (turns_of (session st)))),
      (ensure_session svc st).2)) ∨
  (method req = POST ∧ form req !! "query" = None ∧
   chat svc req st = (inl (BadRequestKeyError "query"), (ensure_session svc st).2)) ∨
  (method req = POST ∧
   ∃ q e st2,
     form req !! "query" = Some q ∧
     retrieve_context svc q default_top_k (ensure_session svc st).2 = (inl e, st2) ∧
     chat svc req st = (inl e, st2)) ∨
  (method req = POST ∧
   ∃ q ctx st2 g w3,
     form req !! "query" = Some q ∧
     retrieve_context svc q default_top_k (ensure_session svc st).2 = (inr ctx, st2) ∧
     generate_content svc MODEL_NAME (compose_prompt ctx q) (world st2) = (g, w3) ∧
     session_id (session (ensure_session svc st).2) = None ∧
     chat svc req st =
       (inl (KeyError "session_id"),
        mkState (mkSession (Some (turns_of (session st) ++ [mkTurn q (response_of g)]))
                   None true)
          w3 (trace st2 ++ [EvGenerate MODEL_NAME (compose_prompt ctx q)]))) ∨
  (method req = POST ∧
   ∃ q ctx st2 g w3 sid w' evs,
     form req !! "query" = Some q ∧
     retrieve_context svc q default_top_k (ensure_session svc st).2 = (inr ctx, st2) ∧
     generate_content svc MODEL_NAME (compose_prompt ctx q) (world st2) = (g, w3) ∧
     session_id (session (ensure_session svc st).2) = Some sid ∧
     chat svc req st =
       (inr (render_template_string (Some (response_of g))
               (reverse (turns_of (session st) ++ [mkTurn q (response_of g)]))),
        mkState (mkSession (Some (turns_of (session st) ++ [mkTurn q (response_of g)]))
                   (Some sid) true)
          w' (trace st2 ++ EvGenerate MODEL_NAME (compose_prompt ctx q) :: evs)) ∧
     log_to_google_sheet svc sid q (response_of g)
       (mkState (mkSession (Some (turns_of (session st) ++ [mkTurn q (response_of g)]))
                   (Some sid) true)
          w3 (trace st2 ++ [EvGenerate MODEL_NAME (compose_prompt ctx q)])) =
       (inr (),
        mkState (mkSession (Some (turns_of (session st) ++ [mkTurn q (response_of g)]))
                   (Some sid) true)
          w' (trace st2 ++ EvGenerate MODEL_NAME (compose_prompt ctx q) :: evs)) ∧
     audit_events sid q (response_of g) evs).
Proof.
  destruct (decide (method req = POST)) as [Hm|Hm]; last first.
  { left. split; [exact Hm|]. by apply chat_render_only. }
  right. destruct (form req !! "query") as [q|] eqn:Hq; last first.
  { left. split; [exact Hm|]. split; [reflexivity|]. by apply chat_post_no_query. }
  right. destruct (retrieve_context svc q default_top_k (ensure_session svc st).2)
    as [[e|ctx] st2] eqn:Hr.
  { left. split; [exact Hm|]. exists q, e, st2.
    split; [done|]. split; [done|].
    by apply (chat_post_retrieval_fails _ _ q). }
  right. destruct (generate_content svc MODEL_NAME (compose_prompt ctx q) (world st2))
    as [g w3] eqn:Hg.
  destruct (session_id (session (ensure_session svc st).2)) as [sid|] eqn:Hsid; last first.
  { left. split; [exact Hm|]. exists q, ctx, st2, g, w3.
    repeat (split; [done|]).
    by apply (chat_post_no_session_id _ _ q _ ctx). }
  right. split; [exact Hm|].
  pose proof (chat_post_logged _ _ _ _ _ _ _ _ _ Hm Hq Hr Hg Hsid) as Hchat.
  destruct (log_to_google_sheet_events svc sid q (response_of g)
              (mkState (mkSession (Some (turns_of (session st) ++ [mkTurn q (response_of g)]))
                          (Some sid) true)
                 w3 (trace st2 ++ [EvGenerate MODEL_NAME (compose_prompt ctx q)])))
    as (w' & evs & Hlog & Hevs).
  rewrite Hlog in Hchat.
  cbn [session world trace snd] in Hchat, Hlog.
  rewrite <- app_assoc in Hchat, Hlog. cbn [app] in Hchat, Hlog.
  exists q, ctx, st2, g, w3, sid, w', evs.
  repeat (split; [done|]). exact Hevs.
Qed.

(** ** The context block *)

Lemma string_app_ne_nil_r (s1 s2 : string) : s2 ≠ "" → s1 +:+ s2 ≠ "".
Proof. destruct s1; [done|]. by intros _. Qed.

Lemma join_cons_cons sep (x y : string) (l : list string) :
  join sep (x :: y :: l) = x +:+ sep +:+ join sep (y :: l).
Proof. reflexivity. Qed.

Lemma join_cons_ne_nil sep (x : string) (l : list string) :
  x ≠ "" → join sep (x :: l) ≠ "".
Proof.
  intros Hx. destruct l as [|y l]; [exact Hx|].
  rewrite join_cons_cons. by apply string_app_ne_nil.
Qed.

(** [join] around any element of the list. *)
Lemma join_middle sep (l1 : list string) (x : string) (l2 : list string) :
  join sep (l1 ++ x :: l2) =
    (match l1 with [] => "" | _ => join sep l1 +:+ sep end) +:+ x +:+
    (match l2 with [] => "" | _ => sep +:+ join sep l2 end).
Proof.
  induction l1 as [|a l1 IH].
  - destruct l2 as [|y l2]; simpl.
    + by rewrite string_app_nil_r.
    + reflexivity.
  - change ((a :: l1) ++ x :: l2) with (a :: (l1 ++ x :: l2)).
    assert (join sep (a :: (l1 ++ x :: l2)) = a +:+ sep +:+ join sep (l1 ++ x :: l2))
      as -> by by destruct l1.
    rewrite IH. destruct l1 as [|b l1].
    + by rewrite !string_app_assoc.
    + rewrite join_cons_cons. by rewrite !string_app_assoc.
Qed.

Lemma format_match_ne_nil (m : Match) (piece : string) :
  format_match m = inr piece → piece ≠ "".
Proof.
  unfold format_match. destruct (metadata m !! "text") as [text|]; [|done].
  intros [= <-]. by apply string_app_ne_nil_r.
Qed.

(** X1. Once the index has answered, [retrieve_context] returns the empty
    string exactly when the index returned no match: a match that is
    formatted always leaves a piece that is not empty (and a match that cannot
    be formatted makes the retrieval raise). *)
Theorem context_empty_iff_no_match svc q k st v vs w1 ms w2 :
  encode svc ["query: " +:+ q] (world st) = (inr (v :: vs), w1) →
  index_query svc v k true w1 = (inr ms, w2) →
  (retrieve_context svc q k st).1 = inr "" ↔ ms = [].
Proof.
  intros Henc Hq. rewrite (retrieve_context_run _ _ _ _ _ _ _ _ _ Henc Hq). simpl.
  split; [|by intros ->].
  destruct ms as [|m ms]; [done|]. simpl.
  destruct (format_match m) as [e|piece] eqn:Hm; [done|].
  destruct (comprehension format_match ms) as [e|pieces]; [done|].
  intros [= Hjoin]. exfalso.
  by apply (join_cons_ne_nil (nl +:+ nl) piece pieces (format_match_ne_nil _ _ Hm)).
Qed.

(** X2. Every match returned by the index is found in the context block at
    its own place: the block is the block of the matches before it, a blank
    line, its formatted piece, a blank line, and the block of the matches
    after it (without the blank line on a side that has no match).  In
    particular the text of every match occurs in the block. *)
Theorem context_splits_at_each_match svc q k st v vs w1 ms w2
    (rs1 : list MatchRecord) (r : MatchRecord) (rs2 : list MatchRecord) :
  encode svc ["query: " +:+ q] (world st) = (inr (v :: vs), w1) →
  index_query svc v k true w1 = (inr ms, w2) →
  Forall2 is_record ms (rs1 ++ r :: rs2) →
  ∃ ctx,
    (retrieve_context svc q k st).1 = inr ctx ∧
    ctx = (match rs1 with [] => "" | _ => spec_context rs1 +:+ nl +:+ nl end) +:+
          spec_format r +:+
          (match rs2 with [] => "" | _ => nl +:+ nl +:+ spec_context rs2 end) ∧
    contains ctx r.1.
Proof.
  intros Henc Hq Hrs.
  rewrite (retrieve_context_run _ _ _ _ _ _ _ _ _ Henc Hq).
  rewrite (comprehension_records _ _ Hrs). simpl.
  eexists. split; [reflexivity|].
  assert (join (nl +:+ nl) (map spec_format (rs1 ++ r :: rs2)) =
          (match rs1 with [] => "" | _ => spec_context rs1 +:+ nl +:+ nl end) +:+
          spec_format r +:+
          (match rs2 with [] => "" | _ => nl +:+ nl +:+ spec_context rs2 end)) as Hsplit.
  { rewrite map_app. simpl. rewrite join_middle. unfold spec_context.
    by destruct rs1, rs2. }
  split; [exact Hsplit|].
  rewrite Hsplit.
  exists (match rs1 with [] => "" | _ => spec_context rs1 +:+ nl +:+ nl end),
    ((" (source: " +:+ (match r.2 with Some src => src | None => "unknown" end) +:+ ")")
     +:+ (match rs2 with [] => "" | _ => nl +:+ nl +:+ spec_context rs2 end)).
  unfold spec_format. by rewrite (string_app_assoc r.1).
Qed.

(** ** The audit *)

Lemma audit_events_classified sid q r evs :
  audit_events sid q r evs →
  generations evs = [] ∧
  ((printed_lines evs = [] ∧ ∃ now, audit_rows evs = [[sid; now; q; r]]) ∨
   (∃ e, printed_lines evs = [log_failure_prefix +:+ str_exn e] ∧
         (audit_rows evs = [] ∨ ∃ now, audit_rows evs = [[sid; now; q; r]]))).
Proof.
  destruct 1; (split; [reflexivity|]); simpl; eauto 8.
Qed.

Lemma audit_events_rows sid q r evs :
  audit_events sid q r evs →
  audit_rows evs = [] ∨ ∃ now, audit_rows evs = [[sid; now; q; r]].
Proof. destruct 1; simpl; eauto. Qed.


(** ** What a request does *)

Lemma ensure_session_quiet svc st :
  ∃ evs, trace (ensure_session svc st).2 = trace st ++ evs ∧
         generations evs = [] ∧ audit_rows evs = [] ∧ printed_lines evs = [].
Proof.
  destruct (ensure_session_events svc st) as (evs & Ht & Hshape).
  exists evs. split; [exact Ht|]. by destruct Hshape as [->| ->].
Qed.

Lemma retrieval_quiet svc q k st :
  ∃ evs,
    session (retrieve_context svc q k (ensure_session svc st).2).2 =
      session (ensure_session svc st).2 ∧
    trace (retrieve_context svc q k (ensure_session svc st).2).2 = trace st ++ evs ∧
    generations evs = [] ∧ audit_rows evs = [] ∧ printed_lines evs = [].
Proof.
  destruct (ensure_session_quiet svc st) as (evs0 & Ht0 & Hg0 & Ha0 & Hp0).
  destruct (retrieve_context_events svc q k (ensure_session svc st).2)
    as (evs1 & Hs & Ht1 & Hshape).
  exists (evs0 ++ evs1). split; [exact Hs|].
  rewrite Ht1, Ht0, <- app_assoc. split; [reflexivity|].
  rewrite generations_app, audit_rows_app, printed_lines_app, Hg0, Ha0, Hp0.
  by destruct Hshape as [->|[v ->]].
Qed.

(** Every request either leaves the history as it is and calls neither the
    model nor the audit, or -- being a [POST] whose retrieval succeeded --
    calls the model once, appends one turn and flags the session. *)
Lemma chat_step svc req st :
  ∃ evs,
    trace (chat svc req st).2 = trace st ++ evs ∧
    ((history (session (chat svc req st).2) = Some (turns_of (session st)) ∧
      session (chat svc req st).2 = session (ensure_session svc st).2 ∧
      generations evs = [] ∧ audit_rows evs = [] ∧ printed_lines evs = []) ∨
     (∃ q ctx st2 r,
        method req = POST ∧ form req !! "query" = Some q ∧
        retrieve_context svc q default_top_k (ensure_session svc st).2 = (inr ctx, st2) ∧
        history (session (chat svc req st).2) =
          Some (turns_of (session st) ++ [mkTurn q r]) ∧
        modified (session (chat svc req st).2) = true ∧
        generations evs = [(MODEL_NAME, compose_prompt ctx q)] ∧
        (audit_rows evs = [] ∨
         ∃ sid now, session_id (session (chat svc req st).2) = Some sid ∧
                    audit_rows evs = [[sid; now; q; r]]))).
Proof.
  destruct (chat_cases svc req st)
    as [(Hm & ->)|[(Hm & Hq & ->)|[(Hm & q & e & st2 & Hq & Hr & ->)
       |[(Hm & q & ctx & st2 & g & w3 & Hq & Hr & Hg & Hsid & ->)
        |(Hm & q & ctx & st2 & g & w3 & sid & w' & evs & Hq & Hr & Hg & Hsid & -> & _ & Hevs)]]]];
    simpl.
  - destruct (ensure_session_quiet svc st) as (evs0 & Ht & Hg & Ha & Hp).
    exists evs0. split; [exact Ht|]. left.
    split; [apply ensure_session_history|]. done.
  - destruct (ensure_session_quiet svc st) as (evs0 & Ht & Hg & Ha & Hp).
    exists evs0. split; [exact Ht|]. left.
    split; [apply ensure_session_history|]. done.
  - destruct (retrieval_quiet svc q default_top_k st) as (evs0 & Hs & Ht & Hg & Ha & Hp).
    rewrite Hr in Hs, Ht. simpl in Hs, Ht.
    exists evs0. split; [exact Ht|]. left.
    rewrite Hs. split; [apply ensure_session_history|]. done.
  - destruct (retrieval_quiet svc q default_top_k st) as (evs0 & Hs & Ht & Hg0 & Ha & Hp).
    rewrite Hr in Hs, Ht. simpl in Hs, Ht.
    exists (evs0 ++ [EvGenerate MODEL_NAME (compose_prompt ctx q)]).
    rewrite Ht, <- app_assoc. split; [reflexivity|]. right.
    exists q, ctx, st2, (response_of g).
    rewrite generations_app, audit_rows_app, Hg0, Ha. simpl.
    repeat (split; [done|]). by left.
  - destruct (retrieval_quiet svc q default_top_k st) as (evs0 & Hs & Ht & Hg0 & Ha & Hp).
    rewrite Hr in Hs, Ht. simpl in Hs, Ht.
    exists (evs0 ++ EvGenerate MODEL_NAME (compose_prompt ctx q) :: evs).
    rewrite Ht, <- app_assoc. split; [reflexivity|]. right.
    exists q, ctx, st2, (response_of g).
    destruct (audit_events_classified _ _ _ _ Hevs) as [Hgen _].
    rewrite generations_app, audit_rows_app, Hg0, Ha. simpl. rewrite Hgen.
    repeat (split; [done|]).
    destruct (audit_events_rows _ _ _ _ Hevs) as [->|[now ->]]; [by left|].
    right. by exists sid, now.
Qed.

(** X5. A request that is not a [POST] only reads an existing session: it
    returns the page of the history and leaves the whole state -- session,
    outside world, calls made -- exactly as it was.  On first contact it
    renders the empty transcript, and all it does is to create the session
    with an empty history and an identifier drawn from [uuid4]. *)
Theorem request_without_post_is_read_only svc req st :
  method req ≠ POST →
  (∀ turns,
     history (session st) = Some turns →
     chat svc req st = (inr (render_template_string None (reverse turns)), st)) ∧
  (history (session st) = None →
   chat svc req st =
     (inr (render_template_string None []),
      mkState (mkSession (Some []) (Some (uuid4 svc (world st)).1) true)
        (uuid4 svc (world st)).2
        (trace st ++ [EvUuid4 (uuid4 svc (world st)).1]))).
Proof.
  intros Hm. split.
  - intros turns Hh. rewrite (chat_render_only _ _ _ Hm).
    rewrite (ensure_session_existing _ _ _ Hh). unfold turns_of. by rewrite Hh.
  - intros Hh. rewrite (chat_render_only _ _ _ Hm).
    rewrite (ensure_session_fresh _ _ Hh). unfold turns_of. by rewrite Hh.
Qed.

(** X6. A [POST] whose form has no [query] field is refused with
    [BadRequestKeyError] (status 400) before anything else is called: the
    state it leaves is the one a [GET] would leave, so no turn is appended
    and neither the embedder, the index, the model nor the spreadsheet is
    called. *)
Theorem post_without_query_is_refused svc req st :
  method req = POST → form req !! "query" = None →
  (chat svc req st).1 = inl (BadRequestKeyError "query") ∧
  http_status (chat svc req st).1 = 400 ∧
  (chat svc req st).2 = (chat svc (mkRequest GET (form req)) st).2 ∧
  history (session (chat svc req st).2) = Some (turns_of (session st)) ∧
  ∃ evs, trace (chat svc req st).2 = trace st ++ evs ∧
         (evs = [] ∨ evs = [EvUuid4 (uuid4 svc (world st)).1]).
Proof.
  intros Hm Hq. rewrite (chat_post_no_query _ _ _ Hm Hq).
  rewrite (chat_render_only svc (mkRequest GET (form req)) st) by done.
  simpl. repeat (split; [done|]).
  split; [apply ensure_session_history|apply ensure_session_events].
Qed.

(** X7. Whatever the request and however it ends, the history it leaves is
    the history it found followed by at most one new turn: earlier turns
    are never edited, removed or reordered, neither in the session of the
    running request nor in the one written back for the next request. *)
Theorem history_only_grows svc req st :
  ∃ new,
    length new ≤ 1 ∧
    history (session (chat svc req st).2) = Some (turns_of (session st) ++ new) ∧
    turns_of (session (handle svc req st)) = turns_of (session st) ++ new.
Proof.
  destruct (chat_step svc req st)
    as (evs & _ & [(Hh & _)|(q & ctx & st2 & r & _ & _ & _ & Hh & Hmod & _)]).
  - exists []. rewrite app_nil_r. split; [simpl; lia|]. split; [exact Hh|].
    unfold handle, save_session. simpl.
    destruct (modified (session (chat svc req st).2)); [|done].
    unfold turns_of at 1. simpl. by rewrite Hh.
  - exists [mkTurn q r]. split; [simpl; lia|]. split; [exact Hh|].
    unfold handle, save_session. simpl. rewrite Hmod.
    unfold turns_of at 1. simpl. by rewrite Hh.
Qed.

(** X8. Every change that a request makes to the session is flagged: if the
    handler leaves the session not marked as modified, the session is
    exactly the one it found.  (The in-place append to the history would go
    unnoticed without the explicit [session.modified = True].) *)
Theorem session_change_is_flagged svc req st :
  modified (session (chat svc req st).2) = false →
  session (chat svc req st).2 = session st.
Proof.
  intros Hmod.
  destruct (chat_step svc req st)
    as (evs & _ & [(_ & Hs & _)|(q & ctx & st2 & r & _ & _ & _ & _ & Hmod' & _)]);
    [|congruence].
  rewrite Hs in Hmod |- *.
  destruct (history (session st)) as [turns|] eqn:Hh.
  - by rewrite (ensure_session_existing _ _ _ Hh).
  - by rewrite (ensure_session_modified _ _ Hh) in Hmod.
Qed.

(** X9. An answered [POST] hands at most one row to the spreadsheet, and
    that row records the turn just stored: its columns are the identifier
    of the session, the time, the posted query and the very response that
    was appended to the history and put on the page. *)
Theorem audit_row_is_the_stored_turn svc req st page st' :
  method req = POST →
  chat svc req st = (inr page, st') →
  ∃ t evs,
    history (session st') = Some (turns_of (session st) ++ [t]) ∧
    form req !! "query" = Some (query t) ∧
    page_response page = Some (response t) ∧
    trace st' = trace st ++ evs ∧
    (audit_rows evs = [] ∨
     ∃ sid now, session_id (session st') = Some sid ∧
                audit_rows evs = [[sid; now; query t; response t]]).
Proof.
  intros Hm Hchat.
  destruct (chat_cases svc req st)
    as [(Hm' & _)|[(_ & _ & Heq)|[(_ & q & e & st2 & _ & _ & Heq)
       |[(_ & q & ctx & st2 & g & w3 & _ & _ & _ & _ & Heq)
        |(_ & q & ctx & st2 & g & w3 & sid & w' & evs & Hq & Hr & _ & _ & Heq & _ & Hevs)]]]];
    [done|congruence|congruence|congruence|].
  rewrite Heq in Hchat. injection Hchat as <- <-.
  destruct (retrieval_quiet svc q default_top_k st) as (evs0 & _ & Ht & _ & Ha & _).
  rewrite Hr in Ht. simpl in Ht.
  exists (mkTurn q (response_of g)),
    (evs0 ++ EvGenerate MODEL_NAME (compose_prompt ctx q) :: evs).
  simpl. rewrite Ht, <- app_assoc. repeat (split; [done|]).
  rewrite audit_rows_app, Ha. simpl.
  destruct (audit_events_rows _ _ _ _ Hevs) as [->|[now ->]]; [by left|].
  right. by exists sid, now.
Qed.

(** X10. A request calls the model at most once -- there is no retry -- and
    only in a [POST] whose retrieval returned a context; the call is then
    made on the model ["gemini-1.5-flash"] with the prompt composed from that
    context and the posted query. *)
Theorem model_called_at_most_once svc req st :
  ∃ evs,
    trace (chat svc req st).2 = trace st ++ evs ∧
    (generations evs = [] ∨
     ∃ q ctx st2,
       method req = POST ∧ form req !! "query" = Some q ∧
       retrieve_context svc q default_top_k (ensure_session svc st).2 = (inr ctx, st2) ∧
       generations evs = [("gemini-1.5-flash", compose_prompt ctx q)]).
Proof.
  destruct (chat_step svc req st)
    as (evs & Ht & [(_ & _ & Hg & _)|(q & ctx & st2 & r & Hm & Hq & Hr & _ & _ & Hg & _)]);
    exists evs; (split; [exact Ht|]); [by left|].
  right. by exists q, ctx, st2.
Qed.

(** ** A session over its requests *)

(** One request of a session, as seen by its next request. *)
Lemma handle_step svc req st :
  ∃ evs new,
    trace (handle svc req st) = trace st ++ evs ∧
    turns_of (session (handle svc req st)) = turns_of (session st) ++ new ∧
    Forall2 generation_of_turn (generations evs) new ∧
    logged_turns evs `sublist_of` new.
Proof.
  destruct (chat_step svc req st)
    as (evs & Ht & [(Hh & _ & Hg & Ha & _)
                   |(q & ctx & st2 & r & _ & _ & _ & Hh & Hmod & Hg & Ha)]).
  - exists evs, []. split; [exact Ht|]. rewrite app_nil_r.
    unfold logged_turns. rewrite Hg, Ha. split; [|split; by constructor].
    unfold handle, save_session. simpl.
    destruct (modified (session (chat svc req st).2)); [|done].
    unfold turns_of at 1. simpl. by rewrite Hh.
  - exists evs, [mkTurn q r]. split; [exact Ht|]. split.
    { unfold handle, save_session. simpl. rewrite Hmod.
      unfold turns_of at 1. simpl. by rewrite Hh. }
    rewrite Hg. split.
    + constructor; [|constructor]. split; [reflexivity|]. by exists ctx.
    + unfold logged_turns.
      destruct Ha as [->|(sid & now & _ & ->)]; simpl; [apply sublist_nil_l|done].
Qed.

(** X11. In every state that a session reaches, the turns of its history
    answer, one for one and in order, the calls made to the model for that
    session: the i-th call was made on the pinned model with a prompt
    composed with the query of the i-th turn.  No answer of the model is
    dropped and no turn is stored without a call. *)
Theorem turns_answer_model_calls svc st :
  reachable svc st →
  Forall2 generation_of_turn (generations (trace st)) (turns_of (session st)).
Proof.
  induction 1 as [w|req st Hreach IH|w st Hreach IH].
  - constructor.
  - destruct (handle_step svc req st) as (evs & new & -> & -> & Hgen & _).
    rewrite generations_app. by apply Forall2_app.
  - exact IH.
Qed.

(** X12. In every state that a session reaches, the turns recorded by the
    rows handed to the spreadsheet are, in the same order, turns of the
    history of the session: the audit log is a subsequence of the
    transcript (a turn is missing from it when its audit failed before the
    append). *)
Theorem audit_log_follows_history svc st :
  reachable svc st →
  logged_turns (trace st) `sublist_of` turns_of (session st).
Proof.
  induction 1 as [w|req st Hreach IH|w st Hreach IH].
  - constructor.
  - destruct (handle_step svc req st) as (evs & new & -> & -> & _ & Hlog).
    rewrite logged_turns_app. by apply sublist_app.
  - exact IH.
Qed.

(** ** Missing credentials *)

Lemma log_without_credentials svc sid q r st :
  GOOGLE_CREDS_B64 svc = None ∨ GOOGLE_CREDS_B64 svc = Some "" →
  log_to_google_sheet svc sid q r st =
    (inr (),
     mkState (session st) (world st)
       (trace st ++
        [EvPrint "❌ Failed to log to Google Sheet: Missing GOOGLE_CREDS_B64 environment variable."])).
Proof.
  intros Hcreds. unfold log_to_google_sheet, get_google_credentials.
  by destruct Hcreds as [-> | ->].
Qed.

Lemma chat_without_credentials svc req st :
  GOOGLE_CREDS_B64 svc = None ∨ GOOGLE_CREDS_B64 svc = Some "" →
  ∃ evs, trace (chat svc req st).2 = trace st ++ evs ∧ audit_rows evs = [].
Proof.
  intros Hcreds.
  destruct (chat_cases svc req st)
    as [(_ & ->)|[(_ & _ & ->)|[(_ & q & e & st2 & _ & Hr & ->)
       |[(_ & q & ctx & st2 & g & w3 & _ & Hr & _ & _ & ->)
        |(_ & q & ctx & st2 & g & w3 & sid & w' & evs & _ & Hr & _ & _ & -> & Hlog & _)]]]];
    simpl.
  - destruct (ensure_session_quiet svc st) as (evs0 & Ht & _ & Ha & _). by exists evs0.
  - destruct (ensure_session_quiet svc st) as (evs0 & Ht & _ & Ha & _). by exists evs0.
  - destruct (retrieval_quiet svc q default_top_k st) as (evs0 & _ & Ht & _ & Ha & _).
    rewrite Hr in Ht. by exists evs0.
  - destruct (retrieval_quiet svc q default_top_k st) as (evs0 & _ & Ht & _ & Ha & _).
    rewrite Hr in Ht. simpl in Ht. eexists (evs0 ++ [_]).
    rewrite Ht, <- app_assoc. split; [reflexivity|].
    by rewrite audit_rows_app, Ha.
  - destruct (retrieval_quiet svc q default_top_k st) as (evs0 & _ & Ht & _ & Ha & _).
    rewrite Hr in Ht. simpl in Ht.
    rewrite (log_without_credentials _ _ _ _ _ Hcreds) in Hlog.
    injection Hlog as _ Htrace. simpl in Htrace.
    rewrite <- app_assoc in Htrace. apply app_inv_head in Htrace.
    injection Htrace as <-.
    eexists (evs0 ++ [_; _]).
    rewrite Ht, <- app_assoc. split; [reflexivity|].
    by rewrite audit_rows_app, Ha.
Qed.

(** X3. When the environment variable [GOOGLE_CREDS_B64] is unset or empty,
    [log_to_google_sheet] calls nothing outside: it leaves the world as it
    is and prints the one line that tells the variable is missing.  The
    requests are served as usual, and no row is ever handed to the
    spreadsheet for the session. *)
Theorem no_credentials_no_spreadsheet svc :
  GOOGLE_CREDS_B64 svc = None ∨ GOOGLE_CREDS_B64 svc = Some "" →
  (∀ sid q r st,
     log_to_google_sheet svc sid q r st =
       (inr (),
        mkState (session st) (world st)
          (trace st ++
           [EvPrint "❌ Failed to log to Google Sheet: Missing GOOGLE_CREDS_B64 environment variable."]))) ∧
  (∀ st, reachable svc st → audit_rows (trace st) = []).
Proof.
  intros Hcreds. split.
  - intros sid q r st. by apply log_without_credentials.
  - induction 1 as [w|req st Hreach IH|w st Hreach IH]; simpl; [done| |exact IH].
    destruct (chat_without_credentials svc req st Hcreds) as (evs & -> & Ha).
    by rewrite audit_rows_app, IH, Ha.
Qed.

(** X16. The first request of a session creates it whatever the request is
    and however it ends (answered, refused, or stopped by an exception of
    the retrieval): the session it leaves, and writes back flagged as
    modified, has a history of at most one turn and, as identifier, the
    string drawn from [uuid4] by that request. *)
Theorem first_contact_creates_the_session svc req st :
  history (session st) = None →
  ∃ new,
    length new ≤ 1 ∧
    session (chat svc req st).2 =
      mkSession (Some new) (Some (uuid4 svc (world st)).1) true ∧
    session (handle svc req st) =
      mkSession (Some new) (Some (uuid4 svc (world st)).1) false.
Proof.
  intros Hnone.
  destruct (chat_state svc req st) as (evs & _ & _ & Hid & Hfresh & _).
  specialize (Hfresh Hnone).
  rewrite ensure_session_id, Hnone in Hid.
  assert (∃ new, length new ≤ 1 ∧ history (session (chat svc req st).2) = Some new)
    as (new & Hlen & Hh).
  { destruct (chat_step svc req st)
      as (evs' & _ & [(Hh & _)|(q & ctx & st2 & r & _ & _ & _ & Hh & _)]);
      unfold turns_of in Hh; rewrite Hnone in Hh; simpl in Hh.
    - exists []. split; [simpl; lia|exact Hh].
    - exists [mkTurn q r]. split; [simpl; lia|exact Hh]. }
  exists new. split; [exact Hlen|].
  unfold handle, save_session. simpl.
  destruct (session (chat svc req st).2) as [h i m]. simpl in *. by subst.
Qed.

(** ** Errors shown as answers *)

(** X13. The transcript does not tell a failed generation from an answer:
    a [POST] whose generation raises [E] returns the same page and leaves
    the same session as it would if the model had answered with the text
    ["⚠️ Error generating response: " + str(E)]. *)
Theorem failure_answer_is_ordinary_turn svc svc' req q st ctx st2 e w3 w3' :
  uuid4 svc = uuid4 svc' → encode svc = encode svc' →
  index_query svc = index_query svc' →
  method req = POST → form req !! "query" = Some q →
  retrieve_context svc q default_top_k (ensure_session svc st).2 = (inr ctx, st2) →
  generate_content svc MODEL_NAME (compose_prompt ctx q) (world st2) = (inl e, w3) →
  generate_content svc' MODEL_NAME (compose_prompt ctx q) (world st2) =
    (inr ("⚠️ Error generating response: " +:+ str_exn e), w3') →
  (chat svc req st).1 = (chat svc' req st).1 ∧
  session (chat svc req st).2 = session (chat svc' req st).2.
Proof.
  intros Hu He Hi Hm Hq Hr Hg Hg'.
  assert (ensure_session svc st = ensure_session svc' st) as Hens
    by (unfold ensure_session; by rewrite Hu).
  assert (retrieve_context svc' q default_top_k (ensure_session svc' st).2 = (inr ctx, st2))
    as Hr'.
  { rewrite <- Hens, <- Hr. unfold retrieve_context. by rewrite He, Hi. }
  destruct (session_id (session (ensure_session svc st).2)) as [sid|] eqn:Hsid;
    pose proof Hsid as Hsid'; rewrite Hens in Hsid'.
  - destruct (chat_post_answered _ _ _ _ _ _ _ _ _ Hm Hq Hr Hg Hsid)
      as (w1 & evs1 & -> & _).
    destruct (chat_post_answered _ _ _ _ _ _ _ _ _ Hm Hq Hr' Hg' Hsid')
      as (w2 & evs2 & -> & _).
    done.
  - rewrite (chat_post_no_session_id _ _ _ _ _ _ _ _ Hm Hq Hr Hg Hsid).
    by rewrite (chat_post_no_session_id _ _ _ _ _ _ _ _ Hm Hq Hr' Hg' Hsid').
Qed.

(** ** The prompt *)

(** X14. For a given context the prompt determines the query, but the
    template does not protect the border between context and question:
    moving the text ["\n\nQuestion: " + Q] from the end of the context to
    the front of the query, or back, gives the same prompt. *)
Theorem compose_prompt_boundary :
  (∀ C Q Q' : string, compose_prompt C Q = compose_prompt C Q' → Q = Q') ∧
  (∀ C Q Q' : string,
     compose_prompt (C +:+ nl +:+ nl +:+ "Question: " +:+ Q) Q' =
     compose_prompt C (Q +:+ nl +:+ nl +:+ "Question: " +:+ Q')).
Proof.
  split.
  - intros C Q Q' Heq. unfold compose_prompt in Heq.
    by repeat apply (inj (String.app _)) in Heq.
  - intros C Q Q'. unfold compose_prompt. by rewrite !string_app_assoc.
Qed.

(** ** A request in which everything works *)

Lemma log_success svc sid q r st b64 js info creds client w1 sheet w2 now w3 w4 :
  GOOGLE_CREDS_B64 svc = Some b64 → b64 ≠ "" →
  b64decode_utf8 svc b64 = inr js → json_loads svc js = inr info →
  from_service_account_info svc info scopes = inr creds →
  authorize svc creds (world st) = (inr client, w1) →
  open_sheet1 svc client SPREADSHEET_NAME w1 = (inr sheet, w2) →
  utcnow_isoformat svc w2 = (now, w3) →
  append_row svc sheet [sid; now; q; r] w3 = (inr (), w4) →
  log_to_google_sheet svc sid q r st =
    (inr (),
     mkState (session st) w4
       (trace st ++ [EvAuthorize; EvOpen SPREADSHEET_NAME; EvUtcnow now;
                     EvAppendRow [sid; now; q; r]])).
Proof.
  intros Hcreds Hne Hb Hj Hf Hauth Hopen Hnow Happ.
  unfold log_to_google_sheet, get_google_credentials. rewrite Hcreds.
  destruct b64 as [|c b64]; [done|]. run.
  rewrite Hb. simpl. rewrite Hj. simpl. rewrite Hf. simpl. rewrite Hauth. simpl.
  rewrite Hopen. simpl. rewrite Hnow. simpl. rewrite Happ. simpl.
  by rewrite <- !app_assoc.
Qed.

(** X15. A [POST] to an existing session in which every service answers:
    the handler calls, in this order, the embedder, the index, the model,
    the authorization, the spreadsheet, the clock and the append of the row
    [[session id; time; query; answer]]; it leaves the history with the new
    turn at its end, and the page shows that turn first, above the earlier
    ones. *)
Theorem answered_post_end_to_end svc req q st turns sid v vs w1 ms w2 rs text w3
    b64 js info creds client w4 sheet w5 now w6 w7 :
  method req = POST → form req !! "query" = Some q →
  history (session st) = Some turns → session_id (session st) = Some sid →
  encode svc ["query: " +:+ q] (world st) = (inr (v :: vs), w1) →
  index_query svc v default_top_k true w1 = (inr ms, w2) →
  Forall2 is_record ms rs →
  generate_content svc MODEL_NAME (compose_prompt (spec_context rs) q) w2 = (inr text, w3) →
  GOOGLE_CREDS_B64 svc = Some b64 → b64 ≠ "" →
  b64decode_utf8 svc b64 = inr js → json_loads svc js = inr info →
  from_service_account_info svc info scopes = inr creds →
  authorize svc creds w3 = (inr client, w4) →
  open_sheet1 svc client SPREADSHEET_NAME w4 = (inr sheet, w5) →
  utcnow_isoformat svc w5 = (now, w6) →
  append_row svc sheet [sid; now; q; text] w6 = (inr (), w7) →
  chat svc req st =
    (inr (mkPage (Some text) (chat_boxes (mkTurn q text :: reverse turns))),
     mkState (mkSession (Some (turns ++ [mkTurn q text])) (Some sid) true) w7
       (trace st ++
        [EvEncode ["query: " +:+ q]; EvQuery v default_top_k true;
         EvGenerate MODEL_NAME (compose_prompt (spec_context rs) q);
         EvAuthorize; EvOpen SPREADSHEET_NAME; EvUtcnow now;
         EvAppendRow [sid; now; q; text]])).
Proof.
  intros Hm Hq Hh Hsid Henc Hquery Hrs Hg Hcreds Hne Hb Hj Hf Hauth Hopen Hnow Happ.
  pose proof (ensure_session_existing svc st turns Hh) as Hens.
  assert (retrieve_context svc q default_top_k (ensure_session svc st).2 =
          (inr (spec_context rs),
           mkState (session st) w2
             (trace st ++ [EvEncode ["query: " +:+ q]; EvQuery v default_top_k true])))
    as Hr.
  { rewrite Hens. simpl.
    rewrite (retrieve_context_run _ _ _ _ _ _ _ _ _ Henc Hquery).
    by rewrite (comprehension_records _ _ Hrs). }
  assert (session_id (session (ensure_session svc st).2) = Some sid) as Hsid'
    by by rewrite Hens.
  rewrite (chat_post_logged _ _ _ _ _ _ (inr text) w3 _ Hm Hq Hr Hg Hsid').
  cbn [response_of].
  erewrite (log_success svc sid q text _ b64 js info creds client w4 sheet w5 now w6 w7
              Hcreds Hne Hb Hj Hf); [|exact Hauth|exact Hopen|exact Hnow|exact Happ].
  unfold turns_of. rewrite Hh. simpl.
  rewrite reverse_snoc, <- !app_assoc. reflexivity.
Qed.

End More.

(** * The further properties on the test doubles *)

Lemma context_empty_iff_no_match_witness :
  (retrieve_context (Mock.services (inr []) (inr "I do not know.") true)
     Mock.lockout default_top_k Mock.st0).1 = inr "".
Proof.
  apply (context_empty_iff_no_match
           (Mock.services (inr []) (inr "I do not know.") true)
           Mock.lockout default_top_k Mock.st0 () [] [] [] []).
  - reflexivity.
  - reflexivity.
  - reflexivity.
Defined.

Lemma context_splits_at_each_match_witness :
  ∃ ctx,
    (retrieve_context (Mock.answering true) Mock.lockout default_top_k Mock.st0).1
      = inr ctx ∧
    ctx = ("Lock all valves (source: doc1)" +:+ nl +:+ nl) +:+
          "Notify supervisor (source: doc2)" +:+ "" ∧
    contains ctx "Notify supervisor".
Proof.
  refine (context_splits_at_each_match (Mock.answering true) Mock.lockout
            default_top_k Mock.st0 () [] [] [Mock.m1; Mock.m2] []
            [("Lock all valves", Some "doc1")] ("Notify supervisor", Some "doc2") []
            _ _ _).
  - reflexivity.
  - reflexivity.
  - repeat constructor.
Defined.

Lemma no_credentials_no_spreadsheet_witness :
  audit_rows (trace (handle Mock.without_credentials (Mock.post Mock.lockout) Mock.st0))
    = [].
Proof.
  apply (proj2 (no_credentials_no_spreadsheet Mock.without_credentials
                  (or_introl eq_refl))).
  apply reachable_request, (reachable_first_contact _ []).
Defined.

Lemma request_without_post_is_read_only_witness :
  chat (Mock.answering true) (mkRequest GET ∅) Mock.st1 =
    (inr (render_template_string None
            [mkTurn "Who signs the permit?" "The shift supervisor."]),
     Mock.st1).
Proof.
  refine (proj1 (request_without_post_is_read_only (Mock.answering true)
                   (mkRequest GET ∅) Mock.st1 _)
            [mkTurn "Who signs the permit?" "The shift supervisor."] eq_refl).
  discriminate.
Defined.

Lemma post_without_query_is_refused_witness :
  (chat (Mock.answering true) (mkRequest POST ∅) Mock.st1).1 =
    inl (BadRequestKeyError "query").
Proof.
  exact (proj1 (post_without_query_is_refused (Mock.answering true)
                  (mkRequest POST ∅) Mock.st1 eq_refl eq_refl)).
Defined.

Lemma session_change_is_flagged_witness :
  session (chat (Mock.answering true) (mkRequest HEAD ∅) Mock.st1).2 =
    session Mock.st1.
Proof.
  apply (session_change_is_flagged (Mock.answering true) (mkRequest HEAD ∅) Mock.st1).
  reflexivity.
Defined.

Lemma audit_row_is_the_stored_turn_witness :
  ∃ t evs,
    history (session (chat (Mock.answering true) (Mock.post Mock.lockout) Mock.st1).2)
      = Some (turns_of (session Mock.st1) ++ [t]) ∧
    form (Mock.post Mock.lockout) !! "query" = Some (query t) ∧
    page_response
      (Mock.page_of (chat (Mock.answering true) (Mock.post Mock.lockout) Mock.st1).1)
      = Some (response t) ∧
    trace (chat (Mock.answering true) (Mock.post Mock.lockout) Mock.st1).2
      = trace Mock.st1 ++ evs ∧
    (audit_rows evs = [] ∨
     ∃ sid now,
       session_id (session (chat (Mock.answering true) (Mock.post Mock.lockout)
                              Mock.st1).2) = Some sid ∧
       audit_rows evs = [[sid; now; query t; response t]]).
Proof.
  apply (audit_row_is_the_stored_turn (Mock.answering true) (Mock.post Mock.lockout)
           Mock.st1
           (Mock.page_of (chat (Mock.answering true) (Mock.post Mock.lockout) Mock.st1).1)
           (chat (Mock.answering true) (Mock.post Mock.lockout) Mock.st1).2).
  - reflexivity.
  - vm_compute. reflexivity.
Defined.

Lemma turns_answer_model_calls_witness :
  Forall2 generation_of_turn
    (generations
       (trace (handle (Mock.answering true) (Mock.post Mock.lockout) Mock.st0)))
    (turns_of
       (session (handle (Mock.answering true) (Mock.post Mock.lockout) Mock.st0))).
Proof.
  apply (turns_answer_model_calls (Mock.answering true)).
  apply reachable_request, (reachable_first_contact _ []).
Defined.

Lemma audit_log_follows_history_witness :
  logged_turns
    (trace (handle (Mock.answering true) (Mock.post "Who signs the permit?")
              (handle (Mock.answering true) (Mock.post Mock.lockout) Mock.st0)))
  `sublist_of`
  turns_of
    (session (handle (Mock.answering true) (Mock.post "Who signs the permit?")
                (handle (Mock.answering true) (Mock.post Mock.lockout) Mock.st0))).
Proof.
  apply (audit_log_follows_history (Mock.answering true)).
  apply reachable_request, reachable_request, (reachable_first_contact _ []).
Defined.

Lemma first_contact_creates_the_session_witness :
  ∃ new,
    length new ≤ 1 ∧
    session (chat (Mock.services (inl Mock.unavailable) (inr "") true)
               (Mock.post Mock.lockout) Mock.st0).2 =
      mkSession (Some new) (Some "3f2b8c1e-5a4d-4c6b-9e7f-0a1b2c3d4e5f") true ∧
    session (handle (Mock.services (inl Mock.unavailable) (inr "") true)
               (Mock.post Mock.lockout) Mock.st0) =
      mkSession (Some new) (Some "3f2b8c1e-5a4d-4c6b-9e7f-0a1b2c3d4e5f") false.
Proof.
  exact (first_contact_creates_the_session
           (Mock.services (inl Mock.unavailable) (inr "") true)
           (Mock.post Mock.lockout) Mock.st0 eq_refl).
Defined.

Lemma failure_answer_is_ordinary_turn_witness :
  (chat (Mock.services (inr [Mock.m1; Mock.m2]) (inl Mock.quota) true)
     (Mock.post Mock.lockout) Mock.st0).1 =
  (chat (Mock.services (inr [Mock.m1; Mock.m2])
           (inr "⚠️ Error generating response: 429 quota exceeded") true)
     (Mock.post Mock.lockout) Mock.st0).1 ∧
  session (chat (Mock.services (inr [Mock.m1; Mock.m2]) (inl Mock.quota) true)
             (Mock.post Mock.lockout) Mock.st0).2 =
  session (chat (Mock.services (inr [Mock.m1; Mock.m2])
                   (inr "⚠️ Error generating response: 429 quota exceeded") true)
             (Mock.post Mock.lockout) Mock.st0).2.
Proof.
  refine (failure_answer_is_ordinary_turn
            (Mock.services (inr [Mock.m1; Mock.m2]) (inl Mock.quota) true)
            (Mock.services (inr [Mock.m1; Mock.m2])
               (inr "⚠️ Error generating response: 429 quota exceeded") true)
            (Mock.post Mock.lockout) Mock.lockout Mock.st0
            ("Lock all valves (source: doc1)" +:+ nl +:+ nl +:+
             "Notify supervisor (source: doc2)")
            (retrieve_context
               (Mock.services (inr [Mock.m1; Mock.m2]) (inl Mock.quota) true)
               Mock.lockout default_top_k
               (ensure_session
                  (Mock.services (inr [Mock.m1; Mock.m2]) (inl Mock.quota) true)
                  Mock.st0).2).2
            Mock.quota [] []
            eq_refl eq_refl eq_refl eq_refl eq_refl _ eq_refl eq_refl).
  reflexivity.
Defined.

Lemma compose_prompt_boundary_witness :
  Mock.lockout = Mock.lockout.
Proof.
  apply (proj1 compose_prompt_boundary "Lock all valves (source: doc1)").
  reflexivity.
Defined.

Lemma answered_post_end_to_end_witness :
  (chat (Mock.answering true) (Mock.post Mock.lockout) Mock.st1).1 =
    inr (mkPage (Some "Close and tag every valve.")
           [mkChatBox 1 (mkTurn Mock.lockout "Close and tag every valve.");
            mkChatBox 2 (mkTurn "Who signs the permit?" "The shift supervisor.")]) ∧
  world (chat (Mock.answering true) (Mock.post Mock.lockout) Mock.st1).2 =
    [["3f2b8c1e-5a4d-4c6b-9e7f-0a1b2c3d4e5f"; "2024-05-01T12:00:00";
      Mock.lockout; "Close and tag every valve."]].
Proof.
  rewrite (answered_post_end_to_end (Mock.answering true) (Mock.post Mock.lockout)
             Mock.lockout Mock.st1
             [mkTurn "Who signs the permit?" "The shift supervisor."]
             "3f2b8c1e-5a4d-4c6b-9e7f-0a1b2c3d4e5f"
             () [] [] [Mock.m1; Mock.m2] []
             [("Lock all valves", Some "doc1"); ("Notify supervisor", Some "doc2")]
             "Close and tag every valve." []
             "e30=" "{}" () () () [] () [] "2024-05-01T12:00:00" []
             [["3f2b8c1e-5a4d-4c6b-9e7f-0a1b2c3d4e5f"; "2024-05-01T12:00:00";
               Mock.lockout; "Close and tag every valve."]]).
  - split; reflexivity.
  - reflexivity.
  - reflexivity.
  - reflexivity.
  - reflexivity.
  - reflexivity.
  - reflexivity.
  - repeat constructor.
  - reflexivity.
  - reflexivity.
  - discriminate.
  - reflexivity.
  - reflexivity.
  - reflexivity.
  - reflexivity.
  - reflexivity.
  - reflexivity.
  - reflexivity.
Defined.
